(** * BI-dashboard-analysis: the unification and cleaning core

    A shallow embedding of
    - [dynamic_pipeline/connectors/bi_connector.py],
    - [dynamic_pipeline/extractors/dashboard_extractor.py],
    - [dynamic_pipeline/backend/tool_endpoints.py] ([drill_up]),
    - [dynamic_pipeline/utils/data_cleaning.py],
    with the properties of the unified dashboard schema stated over it.

    Python values are modelled as a JSON-like tree ([pyval]); a dict is an
    association list in insertion order (iteration order is observable in
    the code).  Exceptions are explicit: a computation that may raise
    returns [result A], and a [try ... except Exception] block is a match
    on that result.  Values are trees: two entries of a dict never share
    a mutable object. *)

From Stdlib Require Import ZArith QArith Ascii.
From stdpp Require Import base option strings list gmap pretty.

Local Open Scope stdpp_scope.
Local Open Scope Z_scope.

(** ** Python values *)

Module Py.

(** An instance of Python's [Exception]: its class name and [str(e)]. *)
Record exn : Type := Exn { exn_class : string; exn_str : string }.

Inductive result (A : Type) : Type :=
| Ok (a : A)
| Raise (e : exn).
Arguments Ok {A} a.
Arguments Raise {A} e.

Definition bind {A B} (m : result A) (k : A → result B) : result B :=
  match m with
  | Ok a => k a
  | Raise e => Raise e
  end.

(** Sequencing uses stdpp's monad notation [x ← m; k]. *)
#[global] Instance result_ret : MRet result := @Ok.
#[global] Instance result_bind : MBind result := λ A B k m, bind m k.

(** [VObj] is an opaque handle (a [requests.Session], a [TSC.Server]);
    it supports none of the mapping or sequence protocols. *)
#[warnings="-register-all"]
Inductive pyval : Type :=
| VNone
| VBool (b : bool)
| VInt (z : Z)
| VStr (s : string)
| VList (l : list pyval)
| VDict (d : list (string * pyval))
| VObj (h : N).

Abbreviation pydict := (list (string * pyval)).

(** [type(v).__name__], as it appears in the interpreter's messages. *)
Definition type_name (v : pyval) : string :=
  match v with
  | VNone => "NoneType"
  | VBool _ => "bool"
  | VInt _ => "int"
  | VStr _ => "str"
  | VList _ => "list"
  | VDict _ => "dict"
  | VObj _ => "object"
  end.

(** [bool(v)] *)
Definition truthy (v : pyval) : bool :=
  match v with
  | VNone => false
  | VBool b => b
  | VInt z => negb (z =? 0)
  | VStr s => negb (String.eqb s "")
  | VList l => match l with [] => false | _ => true end
  | VDict d => match d with [] => false | _ => true end
  | VObj _ => true
  end.

(** [a or b] *)
Definition por (a b : pyval) : pyval := if truthy a then a else b.

(** [v == "s"] against a string literal. *)
Definition eq_str (v : pyval) (s : string) : bool :=
  match v with
  | VStr t => String.eqb t s
  | _ => false
  end.

(** *** Dict operations on the insertion-ordered representation *)

Fixpoint dict_get (d : pydict) (k : string) : option pyval :=
  match d with
  | [] => None
  | (k', v) :: d' => if String.eqb k' k then Some v else dict_get d' k
  end.

Definition dict_mem (d : pydict) (k : string) : bool :=
  match dict_get d k with Some _ => true | None => false end.

(** [d.get(k, dflt)] *)
Definition dict_get_default (d : pydict) (k : string) (dflt : pyval) : pyval :=
  default dflt (dict_get d k).

(** [d[k] = v]: an existing key keeps its position, a new key goes last. *)
Fixpoint dict_set (d : pydict) (k : string) (v : pyval) : pydict :=
  match d with
  | [] => [(k, v)]
  | (k', v') :: d' =>
      if String.eqb k' k then (k', v) :: d' else (k', v') :: dict_set d' k v
  end.

Fixpoint dict_remove (d : pydict) (k : string) : pydict :=
  match d with
  | [] => []
  | (k', v') :: d' =>
      if String.eqb k' k then dict_remove d' k else (k', v') :: dict_remove d' k
  end.

Definition dict_keys (d : pydict) : list pyval := (λ kv, VStr (fst kv)) <$> d.
Definition dict_values (d : pydict) : list pyval := snd <$> d.

(** *** Operations that may raise *)

Definition repr_str (s : string) : string := "'" +:+ s +:+ "'".

(** [v[k]] with a string key. *)
Definition getitem (v : pyval) (k : string) : result pyval :=
  match v with
  | VDict d =>
      match dict_get d k with
      | Some x => Ok x
      | None => Raise (Exn "KeyError" (repr_str k))
      end
  | VList _ =>
      Raise (Exn "TypeError" "list indices must be integers or slices, not str")
  | VStr _ =>
      Raise (Exn "TypeError" "string indices must be integers, not 'str'")
  | _ =>
      Raise (Exn "TypeError"
                 ("'" +:+ type_name v +:+ "' object is not subscriptable"))
  end.

Definition no_attribute (v : pyval) (a : string) : exn :=
  Exn "AttributeError"
      ("'" +:+ type_name v +:+ "' object has no attribute '" +:+ a +:+ "'").

(** [v.get(k, dflt)] *)
Definition get (v : pyval) (k : string) (dflt : pyval) : result pyval :=
  match v with
  | VDict d => Ok (dict_get_default d k dflt)
  | _ => Raise (no_attribute v "get")
  end.

(** [v.values()] *)
Definition values (v : pyval) : result (list pyval) :=
  match v with
  | VDict d => Ok (dict_values d)
  | _ => Raise (no_attribute v "values")
  end.

Fixpoint chars (s : string) : list pyval :=
  match s with
  | EmptyString => []
  | String c s' => VStr (String c EmptyString) :: chars s'
  end.

(** What [for x in v] visits: the elements of a list, the KEYS of a dict,
    the characters of a string. *)
Definition iter (v : pyval) : result (list pyval) :=
  match v with
  | VList l => Ok l
  | VDict d => Ok (dict_keys d)
  | VStr s => Ok (chars s)
  | _ =>
      Raise (Exn "TypeError"
                 ("'" +:+ type_name v +:+ "' object is not iterable"))
  end.

End Py.

Import Py.

(** ** Text

    A Python [str] is a [string] read as a sequence of code points below
    256 (ASCII and Latin-1); case mapping and blanks follow Python on that
    range. *)

Module Text.

Definition code (c : ascii) : N := N_of_ascii c.

(** [str.lower()] on code points below 256: A-Z, and the Latin-1 capitals
    (all but the multiplication sign) move up by 32. *)
Definition lower_char (c : ascii) : ascii :=
  let n := code c in
  if ((65 <=? n) && (n <=? 90))%N then ascii_of_N (n + 32)
  else if ((192 <=? n) && (n <=? 222) && negb (n =? 215))%N
       then ascii_of_N (n + 32)
       else c.

Fixpoint lower (s : string) : string :=
  match s with
  | EmptyString => EmptyString
  | String c s' => String (lower_char c) (lower s')
  end.

Fixpoint prefix_of (p s : string) : bool :=
  match p, s with
  | EmptyString, _ => true
  | String a p', String b s' => Ascii.eqb a b && prefix_of p' s'
  | String _ _, EmptyString => false
  end.

(** [p in s] for strings. *)
Fixpoint contains (p s : string) : bool :=
  prefix_of p s ||
  match s with
  | EmptyString => false
  | String _ s' => contains p s'
  end.

End Text.

(** ** connectors/bi_connector.py *)

(** The vendor connectors and the source-specific adapters talk to the
    network; each is an oracle from the keyword arguments it is called
    with to its outcome (a returned value or a raised exception). *)
Record collaborators : Type := Collaborators {
  connect_private_powerbi : pydict → result pyval;
  connect_public_powerbi : pydict → result pyval;
  connect_private_tableau : pydict → result pyval;
  connect_public_tableau : pydict → result pyval;
  powerbi_extract_private_dashboard : pydict → result pyval;
  powerbi_extract_public_dashboard : pydict → result pyval;
  tableau_extract_private_dashboard : pydict → result pyval;
  tableau_extract_public_dashboard : pydict → result pyval
}.

Definition detect_bi_source_from_url (url : pyval) : result string :=
  if negb (truthy url) then
    Raise (Exn "ValueError" "No URL provided for BI source detection.")
  else
    match url with
    | VStr u =>
        let u := Text.lower u in
        if Text.contains "powerbi.com" u || Text.contains "/powerbi/" u
           || Text.contains "/reports/" u then Ok "powerbi"
        else if Text.contains "tableau.com" u || Text.contains "/tableau/" u
                || Text.contains "/views/" u then Ok "tableau"
        else Raise (Exn "ValueError"
                        ("Could not detect BI source from URL: " +:+ u))
    | _ => Raise (no_attribute url "lower")
    end.

Definition _normalize_result (result : pyval) (source auth_type : string)
  : Py.result pyval :=
  status ← get result "status" VNone;
  if negb (eq_str status "success") then
    err ← get result "error"
              (VDict [("type", VStr "unknown");
                      ("message", VStr "Connection failed")]);
    Ok (VDict [("status", VStr "failed");
               ("source", VStr source);
               ("auth_type", VStr auth_type);
               ("client", VNone);
               ("metadata", VDict []);
               ("connection_info", VDict []);
               ("error", err)])
  else
    '(client, metadata, connection_info) ←
      (if String.eqb source "powerbi" then
         client ← get result "session" VNone;
         workspace_id ← get result "workspace_id" VNone;
         access_token ← get result "access_token" VNone;
         Ok (client,
             [("workspace_id", workspace_id)],
             [("access_token", access_token); ("token_type", VStr "Bearer")])
       else if String.eqb source "tableau" then
         client ← get result "server" VNone;
         site ← get result "site" VNone;
         Ok (client, [("site", site)], [])
       else Ok (VNone, [], []));
    Ok (VDict [("status", VStr "success");
               ("source", VStr source);
               ("auth_type", VStr auth_type);
               ("client", client);
               ("metadata", VDict metadata);
               ("connection_info", VDict connection_info);
               ("error", VNone)]).

(** The body of the [try] block once the source is known. *)
Definition connect_dispatch (c : collaborators) (source auth_type : string)
    (kwargs : pydict) : result pyval :=
  if String.eqb source "powerbi" then
    if String.eqb auth_type "private" then
      r ← connect_private_powerbi c kwargs; _normalize_result r source auth_type
    else if String.eqb auth_type "public" then
      r ← connect_public_powerbi c kwargs; _normalize_result r source auth_type
    else Raise (Exn "ValueError"
                    ("Unsupported auth_type '" +:+ auth_type
                     +:+ "' for Power BI"))
  else if String.eqb source "tableau" then
    if String.eqb auth_type "private" then
      r ← connect_private_tableau c kwargs; _normalize_result r source auth_type
    else if String.eqb auth_type "public" then
      r ← connect_public_tableau c kwargs; _normalize_result r source auth_type
    else Raise (Exn "ValueError"
                    ("Unsupported auth_type '" +:+ auth_type
                     +:+ "' for Tableau"))
  else Raise (Exn "ValueError" ("Unsupported source '" +:+ source +:+ "'")).

(** What the [except Exception] handler returns; [source] is the value the
    local variable holds when the exception is raised. *)
Definition connect_failed (source auth_type : string) (e : exn) : pyval :=
  VDict [("status", VStr "failed");
         ("source", VStr source);
         ("auth_type", VStr auth_type);
         ("client", VNone);
         ("metadata", VDict []);
         ("connection_info", VDict []);
         ("error", VDict [("type", VStr "exception");
                          ("message", VStr (exn_str e))])].

(** [connect_bi_dashboard(source=source, auth_type=auth_type, **kwargs)]:
    a [url] entry of [kwargs] binds the parameter [url]; the rest is the
    function's own [**kwargs], to which [url] is added back. *)
Definition connect_bi_dashboard (c : collaborators) (source auth_type : string)
    (kwargs : pydict) : pyval :=
  let url := dict_get_default kwargs "url" VNone in
  let kwargs := dict_remove kwargs "url" in
  match (if String.eqb source "" then detect_bi_source_from_url url
         else Ok source) with
  | Raise e => connect_failed source auth_type e
  | Ok source =>
      let kwargs := dict_set kwargs "url" url in
      match connect_dispatch c source auth_type kwargs with
      | Ok r => r
      | Raise e => connect_failed source auth_type e
      end
  end.

(** ** extractors/dashboard_extractor.py *)

Definition _fail_result (source auth_type : string) (error : pyval) : pyval :=
  VDict [("status", VStr "failed");
         ("source", VStr source);
         ("auth_type", VStr auth_type);
         ("tables", VList []);
         ("kpis", VList []);
         ("filters", VList []);
         ("visuals", VList []);
         ("layout", VDict []);
         ("components", VList []);
         ("html_text", VStr "");
         ("error", error)].

(** One turn of the loop over [components]: a dict without [highlights]
    gets [highlights = []]; anything else is appended as it is. *)
Definition ensure_highlights (comp : pyval) : pyval :=
  match comp with
  | VDict d =>
      if dict_mem d "highlights" then comp
      else VDict (dict_set d "highlights" (VList []))
  | _ => comp
  end.

Definition _ensure_unified_schema (result : pyval) (source auth_type : string)
    (drill_state : pyval) : Py.result pyval :=
  components ← get result "components" (VList []);
  comps ← iter components;
  let updated_components := ensure_highlights <$> comps in
  status ← get result "status" (VStr "success");
  tables ← get result "tables" (VList []);
  kpis ← get result "kpis" (VList []);
  filters ← get result "filters" (VList []);
  visuals ← get result "visuals" (VList []);
  layout ← get result "layout" (VDict []);
  html_text ← get result "html_text" (VStr "");
  drill ← get result "drill_state" (por drill_state (VDict []));
  error ← get result "error" VNone;
  Ok (VDict [("status", status);
             ("source", VStr source);
             ("auth_type", VStr auth_type);
             ("tables", tables);
             ("kpis", kpis);
             ("filters", filters);
             ("visuals", visuals);
             ("layout", layout);
             ("components", VList updated_components);
             ("html_text", html_text);
             ("drill_state", drill);
             ("error", error)]).

(** Step 2 of [extract_dashboard]: [result = None], then the call selected
    by [(source, auth_type)], if any, with the keyword arguments the code
    passes. *)
Definition call_adapter (c : collaborators) (source auth_type : string)
    (conn drill_state : pyval) (kwargs : pydict) : result pyval :=
  if String.eqb source "powerbi" then
    if String.eqb auth_type "private" then
      client ← getitem conn "client";
      metadata ← getitem conn "metadata";
      workspace_id ← get metadata "workspace_id" VNone;
      powerbi_extract_private_dashboard c
        [("session", client);
         ("workspace_id", workspace_id);
         ("report_id", dict_get_default kwargs "report_id" VNone);
         ("drill_state", drill_state)]
    else if String.eqb auth_type "public" then
      powerbi_extract_public_dashboard c
        [("public_url", dict_get_default kwargs "embed_url" VNone);
         ("use_ocr", dict_get_default kwargs "use_ocr" (VBool true));
         ("drill_state", drill_state)]
    else Ok VNone
  else if String.eqb source "tableau" then
    if String.eqb auth_type "private" then
      client ← getitem conn "client";
      tableau_extract_private_dashboard c
        [("server", client);
         ("view_id", dict_get_default kwargs "view_id" VNone);
         ("drill_state", drill_state)]
    else if String.eqb auth_type "public" then
      tableau_extract_public_dashboard c
        [("public_url", dict_get_default kwargs "public_url" VNone);
         ("use_ocr", dict_get_default kwargs "use_ocr" (VBool true));
         ("drill_state", drill_state)]
    else Ok VNone
  else Ok VNone.

Section Extract.

(** [connect_bi_dashboard] as [extract_dashboard] sees it (the tests
    replace it): any function of the call's arguments that returns or
    raises. *)
Variable connect : string → string → pydict → result pyval.
Variable c : collaborators.

(** The body of the [try] block. *)
Definition extract_dashboard_try (source auth_type : string)
    (drill_state : pyval) (kwargs : pydict) : result pyval :=
  conn ← connect source auth_type kwargs;
  status ← getitem conn "status";
  if negb (eq_str status "success") then
    err ← get conn "error" VNone;
    Ok (_fail_result source auth_type err)
  else
    result ← call_adapter c source auth_type conn drill_state kwargs;
    match result with
    | VNone =>
        Ok (_fail_result source auth_type
              (VStr "Unsupported source/auth_type combination."))
    | _ => _ensure_unified_schema result source auth_type drill_state
    end.

(** [try: ... except Exception as e: return self._fail_result(..., str(e))] *)
Definition extract_dashboard_with (source auth_type : string)
    (drill_state : pyval) (kwargs : pydict) : pyval :=
  match extract_dashboard_try source auth_type drill_state kwargs with
  | Ok r => r
  | Raise e => _fail_result source auth_type (VStr (exn_str e))
  end.

End Extract.

(** [DashboardExtractor.extract_dashboard] with the repository's own
    [connect_bi_dashboard]. *)
Definition extract_dashboard (c : collaborators) (source auth_type : string)
    (drill_state : pyval) (kwargs : pydict) : pyval :=
  extract_dashboard_with
    (λ s a kw, Ok (connect_bi_dashboard c s a kw)) c
    source auth_type drill_state kwargs.

(** [v[k]] when [v] is a dict that has [k]. *)
Definition field (v : pyval) (k : string) : option pyval :=
  match v with
  | VDict d => dict_get d k
  | _ => None
  end.

(** ["highlights" in comp], for a component that is a record. *)
Definition exposes_highlights (comp : pyval) : bool :=
  match comp with
  | VDict d => dict_mem d "highlights"
  | _ => false
  end.

Definition is_dict (v : pyval) : bool :=
  match v with VDict _ => true | _ => false end.

(** The four combinations [extract_dashboard] has an adapter for. *)
Definition supported (source auth_type : string) : bool :=
  (String.eqb source "powerbi" || String.eqb source "tableau")
  && (String.eqb auth_type "private" || String.eqb auth_type "public").

(** The twelve fields of the unified schema. *)
Definition schema_fields : list string :=
  ["status"; "source"; "auth_type"; "tables"; "kpis"; "filters"; "visuals";
   "layout"; "components"; "html_text"; "drill_state"; "error"].

(** The schema without [drill_state]. *)
Definition core_fields : list string :=
  ["status"; "source"; "auth_type"; "tables"; "kpis"; "filters"; "visuals";
   "layout"; "components"; "html_text"; "error"].

(** A container is empty: [[]] or [{}]. *)
Definition is_empty_container (v : pyval) : bool :=
  match v with
  | VList [] | VDict [] => true
  | _ => false
  end.

(** Collaborators that fail every call; single entries are overridden in
    the scenarios below. *)
Definition unreachable : pydict → result pyval :=
  λ _, Raise (Exn "ConnectionError" "network unreachable").

Definition offline : collaborators :=
  Collaborators unreachable unreachable unreachable unreachable
                unreachable unreachable unreachable unreachable.

(** The connection scenario of the specification: the private Power BI
    connector answers [{status: "failed", error: "auth expired"}]. *)
Definition auth_expired : collaborators :=
  Collaborators
    (λ _, Ok (VDict [("status", VStr "failed");
                      ("error", VStr "auth expired")]))
    unreachable unreachable unreachable
    unreachable unreachable unreachable unreachable.

(** ** backend/tool_endpoints.py: [drill_up] *)

(** [lst.pop()] with no argument; the value is the list that remains. *)
Definition pop_last (v : pyval) : result pyval :=
  match v with
  | VList [] => Raise (Exn "IndexError" "pop from empty list")
  | VList l => Ok (VList (removelast l))
  | VDict _ => Raise (Exn "TypeError" "pop expected at least 1 argument, got 0")
  | _ => Raise (no_attribute v "pop")
  end.

(** The [for visual in visuals.values(): ... break / else: ...] loop.
    [Ok None] is the [else] branch (no visual of that name); [Ok (Some l)]
    is [visual["drill_state"]] after the pop, at the [break]. *)
Fixpoint drill_up_loop (visual_name : string) (visuals : list pyval)
  : result (option pyval) :=
  match visuals with
  | [] => Ok None
  | visual :: rest =>
      name ← get visual "name" VNone;
      if eq_str name visual_name then
        match visual with
        | VDict d =>
            let d := if dict_mem d "drill_state" then d
                     else dict_set d "drill_state" (VList []) in
            state ← getitem (VDict d) "drill_state";
            state ← pop_last state;
            Ok (Some state)
        | _ => Raise (no_attribute visual "get")
        end
      else drill_up_loop visual_name rest
  end.

(** The endpoint.  [**kwargs] is forwarded to [extract_dashboard], whose
    own parameter [drill_state] takes a [drill_state] entry of it; the
    second call passes [drill_state] explicitly as well, which Python
    rejects when [kwargs] already has one.  The assignment
    [dashboard["visuals"] = visuals] is dropped: [dashboard] is rebound by
    the second extraction before it is read again. *)
Definition drill_up (c : collaborators) (visual_name source auth_type : string)
    (kwargs : pydict) : result pyval :=
  let dashboard :=
    extract_dashboard c source auth_type
      (dict_get_default kwargs "drill_state" VNone)
      (dict_remove kwargs "drill_state") in
  visuals ← get dashboard "visuals" (VDict []);
  vs ← values visuals;
  found ← drill_up_loop visual_name vs;
  match found with
  | None =>
      Ok (VDict [("status", VStr "failed");
                 ("error", VStr ("Visual " +:+ visual_name +:+ " not found."))])
  | Some state =>
      if dict_mem kwargs "drill_state" then
        Raise (Exn "TypeError"
                   ("DashboardExtractor.extract_dashboard() got multiple "
                    +:+ "values for keyword argument 'drill_state'"))
      else
        let dashboard :=
          extract_dashboard c source auth_type
            (VDict [(visual_name, state)]) kwargs in
        Ok (VDict [("status", VStr "success"); ("dashboard", dashboard)])
  end.

(** A public Tableau dashboard whose only visual, [Sales], is at the top
    of its hierarchy ([drill_state = []]). *)
Definition sales_at_top : collaborators :=
  Collaborators
    unreachable unreachable unreachable
    (λ _, Ok (VDict [("status", VStr "success"); ("source", VStr "tableau");
                      ("content", VStr "<html></html>")]))
    unreachable unreachable unreachable
    (λ _, Ok (VDict [("status", VStr "success");
                      ("visuals",
                       VDict [("v1", VDict [("name", VStr "Sales");
                                            ("drill_state", VList [])])])])).

(** The same dashboard when the adapter reports no [drill_state] for the
    visual at all. *)
Definition sales_undrilled : collaborators :=
  Collaborators
    unreachable unreachable unreachable
    (λ _, Ok (VDict [("status", VStr "success"); ("source", VStr "tableau");
                      ("content", VStr "<html></html>")]))
    unreachable unreachable unreachable
    (λ _, Ok (VDict [("status", VStr "success");
                      ("visuals",
                       VDict [("v1", VDict [("name", VStr "Sales")])])])).

(** ** backend/tool_endpoints.py: [drill_down] *)

(** [lst.append(x)]; the value is the list afterwards. *)
Definition append_item (v x : pyval) : result pyval :=
  match v with
  | VList l => Ok (VList (l ++ [x]))
  | _ => Raise (no_attribute v "append")
  end.

(** The loop of [drill_down], as [drill_up_loop]: [Ok (Some l)] is
    [visual["drill_state"]] after the append. *)
Fixpoint drill_down_loop (visual_name level : string) (visuals : list pyval)
  : result (option pyval) :=
  match visuals with
  | [] => Ok None
  | visual :: rest =>
      name ← get visual "name" VNone;
      if eq_str name visual_name then
        match visual with
        | VDict d =>
            let d := if dict_mem d "drill_state" then d
                     else dict_set d "drill_state" (VList []) in
            state ← getitem (VDict d) "drill_state";
            state ← append_item state (VStr level);
            Ok (Some state)
        | _ => Raise (no_attribute visual "get")
        end
      else drill_down_loop visual_name level rest
  end.

Definition drill_down (c : collaborators)
    (visual_name level source auth_type : string) (kwargs : pydict)
  : result pyval :=
  let dashboard :=
    extract_dashboard c source auth_type
      (dict_get_default kwargs "drill_state" VNone)
      (dict_remove kwargs "drill_state") in
  visuals ← get dashboard "visuals" (VDict []);
  vs ← values visuals;
  found ← drill_down_loop visual_name level vs;
  match found with
  | None =>
      Ok (VDict [("status", VStr "failed");
                 ("error", VStr ("Visual " +:+ visual_name +:+ " not found."))])
  | Some state =>
      if dict_mem kwargs "drill_state" then
        Raise (Exn "TypeError"
                   ("DashboardExtractor.extract_dashboard() got multiple "
                    +:+ "values for keyword argument 'drill_state'"))
      else
        let dashboard :=
          extract_dashboard c source auth_type
            (VDict [(visual_name, state)]) kwargs in
        Ok (VDict [("status", VStr "success"); ("dashboard", dashboard)])
  end.

(** ** Calls by keyword

    Every vendor connector and adapter is called with keyword arguments
    only (a call with [**kwargs], or [f(a=..., b=...)]).  Binding them to the
    parameters of a function without [*args] or [**kwargs] fails on the
    first keyword that names no parameter, then on parameters left
    without a value; the messages are those of CPython 3.10 and later. *)

Record signature : Type := Signature {
  sig_name : string;
  (** The parameters in order, each with its default if it has one. *)
  sig_params : list (string * option pyval)
}.

Definition is_param (params : list (string * option pyval)) (k : string)
  : bool :=
  existsb (λ p, String.eqb p.1 k) params.

Fixpoint first_unexpected (params : list (string * option pyval))
    (kwargs : pydict) : option string :=
  match kwargs with
  | [] => None
  | (k, _) :: rest =>
      if is_param params k then first_unexpected params rest else Some k
  end.

Definition missing_params (params : list (string * option pyval))
    (kwargs : pydict) : list string :=
  fst <$> filter (λ p, p.2 = None ∧ dict_get kwargs p.1 = None) params.

(** ['a'], ['a' and 'b'], ['a', 'b', and 'c']. *)
Fixpoint join_tail (names : list string) : string :=
  match names with
  | [] => ""
  | [n] => ", and " +:+ repr_str n
  | n :: rest => ", " +:+ repr_str n +:+ join_tail rest
  end.

Definition join_names (names : list string) : string :=
  match names with
  | [] => ""
  | [a] => repr_str a
  | [a; b] => repr_str a +:+ " and " +:+ repr_str b
  | a :: rest => repr_str a +:+ join_tail rest
  end.

Definition bind_keywords (sg : signature) (kwargs : pydict) : result pydict :=
  match first_unexpected (sig_params sg) kwargs with
  | Some k =>
      Raise (Exn "TypeError"
                 (sig_name sg +:+ "() got an unexpected keyword argument '"
                  +:+ k +:+ "'"))
  | None =>
      match missing_params (sig_params sg) kwargs with
      | [] =>
          Ok ((λ p, (p.1, default (default VNone p.2) (dict_get kwargs p.1)))
              <$> sig_params sg)
      | names =>
          Raise (Exn "TypeError"
                     (sig_name sg +:+ "() missing " +:+ pretty (length names)
                      +:+ " required positional argument"
                      +:+ (if decide (length names = 1%nat) then "" else "s")
                      +:+ ": " +:+ join_names names))
      end
  end.

(** A function with the given signature whose body is [body]. *)
Definition via_signature (sg : signature) (body : pydict → result pyval)
  : pydict → result pyval :=
  λ kwargs, args ← bind_keywords sg kwargs; body args.

(** The signatures in [connectors/powerbi_connector.py],
    [connectors/tableau_connector.py], [extractors/PowerBI_extractor.py]
    and [extractors/tableau_extractor.py] ([self] is bound). *)
Definition sig_connect_private_powerbi : signature :=
  Signature "connect_private_powerbi"
    [("workspace_id_or_url", None); ("tenant_id", None); ("client_id", None);
     ("client_secret", None); ("workspace_id", Some VNone)].

Definition sig_connect_public_powerbi : signature :=
  Signature "connect_public_powerbi" [("embed_url", None)].

Definition sig_connect_private_tableau : signature :=
  Signature "connect_private_tableau"
    [("server_url", None); ("pat_name", None); ("pat_secret", None);
     ("site", Some (VStr "")); ("use_server_version", Some (VBool true))].

Definition sig_connect_public_tableau : signature :=
  Signature "connect_public_tableau" [("public_url", None)].

Definition sig_powerbi_private : signature :=
  Signature "PowerBIExtractor.extract_private_dashboard"
    [("client", None); ("workspace_id", None); ("report_id", None);
     ("drill_state", Some VNone)].

Definition sig_powerbi_public : signature :=
  Signature "PowerBIExtractor.extract_public_dashboard"
    [("embed_url", None); ("use_ocr", Some (VBool true));
     ("drill_state", Some VNone)].

Definition sig_tableau_private : signature :=
  Signature "TableauExtractor.extract_private_dashboard"
    [("server", None); ("view_id", None); ("drill_state", Some VNone)].

Definition sig_tableau_public : signature :=
  Signature "TableauExtractor.extract_public_dashboard"
    [("public_url", None); ("use_ocr", Some (VBool true));
     ("drill_state", Some VNone)].

(** The repository's connectors and adapters: its signatures around
    arbitrary bodies (the bodies are the network code). *)
Definition with_signatures (bodies : collaborators) : collaborators :=
  Collaborators
    (via_signature sig_connect_private_powerbi (connect_private_powerbi bodies))
    (via_signature sig_connect_public_powerbi (connect_public_powerbi bodies))
    (via_signature sig_connect_private_tableau (connect_private_tableau bodies))
    (via_signature sig_connect_public_tableau (connect_public_tableau bodies))
    (via_signature sig_powerbi_private
       (powerbi_extract_private_dashboard bodies))
    (via_signature sig_powerbi_public
       (powerbi_extract_public_dashboard bodies))
    (via_signature sig_tableau_private
       (tableau_extract_private_dashboard bodies))
    (via_signature sig_tableau_public
       (tableau_extract_public_dashboard bodies)).

(** Bodies that answer success with whatever they are given. *)
Definition echo : collaborators :=
  let connected := λ args : pydict,
    Ok (VDict (("status", VStr "success") :: ("session", VObj 1)
               :: ("server", VObj 2) :: args)) in
  let extracted := λ args : pydict,
    Ok (VDict [("status", VStr "success"); ("called_with", VDict args)]) in
  Collaborators connected connected connected connected
                extracted extracted extracted extracted.

(** ** utils/data_cleaning.py *)

Module DataCleaner.

(** *** Column names *)

(** What [str.strip()] removes, among code points below 256. *)
Definition is_space (c : ascii) : bool :=
  let n := Text.code c in
  (((9 <=? n) && (n <=? 13)) || ((28 <=? n) && (n <=? 32))
   || (n =? 133) || (n =? 160))%N.

(** The class [[0-9a-zA-Z_]]. *)
Definition is_word (c : ascii) : bool :=
  let n := Text.code c in
  (((48 <=? n) && (n <=? 57)) || ((65 <=? n) && (n <=? 90))
   || ((97 <=? n) && (n <=? 122)) || (n =? 95))%N.

Definition is_underscore (c : ascii) : bool := Ascii.eqb c "_".

Fixpoint lstrip (p : ascii → bool) (s : string) : string :=
  match s with
  | EmptyString => EmptyString
  | String c s' => if p c then lstrip p s' else s
  end.

Fixpoint rstrip (p : ascii → bool) (s : string) : string :=
  match s with
  | EmptyString => EmptyString
  | String c s' =>
      match rstrip p s' with
      | EmptyString => if p c then EmptyString else String c EmptyString
      | r => String c r
      end
  end.

(** [s.strip()] / [s.strip(chars)] *)
Definition strip (p : ascii → bool) (s : string) : string :=
  rstrip p (lstrip p s).

(** [re.sub(r"[...]+", "_", s)]: every maximal run of characters of the
    class [p] becomes one underscore; [in_run] tells that the previous
    character belonged to the run being replaced. *)
Fixpoint sub_runs_from (p : ascii → bool) (in_run : bool) (s : string)
  : string :=
  match s with
  | EmptyString => EmptyString
  | String c s' =>
      if p c then
        if in_run then sub_runs_from p true s'
        else String "_" (sub_runs_from p true s')
      else String c (sub_runs_from p false s')
  end.

Definition sub_runs (p : ascii → bool) (s : string) : string :=
  sub_runs_from p false s.

(** First comprehension of [normalize_column_names]. *)
Definition replace_non_word (col : string) : string :=
  sub_runs (λ c, negb (is_word c)) (Text.lower (strip is_space col)).

(** Second comprehension. *)
Definition collapse_underscores (col : string) : string :=
  strip is_underscore (sub_runs is_underscore col).

Definition slugify (col : string) : string :=
  collapse_underscores (replace_non_word col).

(** One turn of the loop of [_deduplicate_columns]; [counts] is the
    [Counter], a missing key counting as 0. *)
Definition dedup_step (st : gmap string nat * list string) (col : string)
  : gmap string nat * list string :=
  let n := S (default 0%nat (st.1 !! col)) in
  (<[col := n]> st.1,
   st.2 ++ [if decide (1 < n)%nat then col +:+ "_" +:+ pretty n else col]).

Definition _deduplicate_columns (columns : list string) : list string :=
  (foldl dedup_step (∅, []) columns).2.

(** [{alias: std for std, aliases in semantic_map.items() for alias in
    aliases}]: a later entry overwrites an earlier one. *)
Definition reverse_map (semantic_map : list (string * list string))
  : gmap string string :=
  foldl (λ m entry, foldl (λ m alias, <[alias := entry.1]> m) m entry.2)
        ∅ semantic_map.

Definition apply_alias (rm : gmap string string) (c : string) : string :=
  default c (rm !! c).

(** [normalize_column_names], on the column labels of the frame. *)
Definition normalize_column_names (semantic_map : list (string * list string))
    (columns : list string) : list string :=
  let cols := replace_non_word <$> columns in
  let cols := collapse_underscores <$> cols in
  let cols := _deduplicate_columns cols in
  let reverse_map := reverse_map semantic_map in
  apply_alias reverse_map <$> cols.

(** The default of [__init__]. *)
Definition default_semantic_map : list (string * list string) :=
  [("revenue_usd", ["revenue_$"; "sales_usd"; "total_sales"]);
   ("date", ["order_date"; "created_on"; "timestamp"])].

(** *** Frames

    A [pandas] frame is a list of named, typed columns of equal length.
    A missing value (None or NaN) is [CNull]; numbers are exact rationals
    standing for the floats. *)

Inductive cell : Type :=
| CNull
| CStr (s : string)
| CNum (q : Q).

Inductive dtype : Type := DObject | DString | DNumber | DDatetime | DBool.

Record series : Type := Series {
  s_name : string;
  s_dtype : dtype;
  s_values : list cell
}.

Abbreviation frame := (list series).

(** The functions of [pandas] whose results depend on float formatting
    and parsing; they are parameters of the model. *)
Record pandas : Type := Pandas {
  (** [pd.to_numeric(errors="coerce")] on one string; [None] is NaN. *)
  to_numeric : string → option Q;
  (** [astype(str)] on a number. *)
  str_of_num : Q → string;
  (** [Series.mean()]; [CNull] is NaN. *)
  series_mean : list cell → cell;
  (** [Series.mode()], the most frequent values in sorted order. *)
  series_mode : list cell → list cell
}.

Definition is_null (c : cell) : bool :=
  match c with CNull => true | _ => false end.

Definition row_has_null (df : frame) (i : nat) : bool :=
  existsb (λ col, match s_values col !! i with
                  | Some c => is_null c
                  | None => false
                  end) df.

Fixpoint select_rows (keep : nat → bool) (i : nat) (vs : list cell)
  : list cell :=
  match vs with
  | [] => []
  | v :: vs' =>
      if keep i then v :: select_rows keep (S i) vs'
      else select_rows keep (S i) vs'
  end.

(** [df.dropna()]: the rows without a missing value. *)
Definition dropna (df : frame) : frame :=
  (λ col, Series (s_name col) (s_dtype col)
            (select_rows (λ i, negb (row_has_null df i)) 0 (s_values col)))
  <$> df.

(** [Series.fillna(value)]; filling with NaN changes nothing. *)
Definition fill_cells (value : cell) (vs : list cell) : list cell :=
  (λ c, if is_null c then value else c) <$> vs.

(** [df.fillna(value)] *)
Definition fillna (value : cell) (df : frame) : frame :=
  (λ col, Series (s_name col) (s_dtype col) (fill_cells value (s_values col)))
  <$> df.

(** The [fill_mean] branch: number columns get their mean, object columns
    the first of their modes when there is one. *)
Definition fill_mean (pd : pandas) (df : frame) : frame :=
  (λ col,
     match s_dtype col with
     | DNumber =>
         Series (s_name col) DNumber
           (fill_cells (series_mean pd (s_values col)) (s_values col))
     | DObject =>
         match series_mode pd (s_values col) with
         | [] => col
         | m :: _ => Series (s_name col) DObject (fill_cells m (s_values col))
         end
     | _ => col
     end) <$> df.

Definition handle_missing_values (pd : pandas)
    (missing_value_strategy : string) (fill_constant : cell) (df : frame)
  : result frame :=
  if String.eqb missing_value_strategy "drop" then Ok (dropna df)
  else if String.eqb missing_value_strategy "fill_mean" then
    Ok (fill_mean pd df)
  else if String.eqb missing_value_strategy "fill_constant" then
    Ok (fillna fill_constant df)
  else Raise (Exn "ValueError"
                  ("Unsupported missing value strategy: "
                   +:+ missing_value_strategy)).

(** *** Scalar values *)

Fixpoint remove_chars (p : ascii → bool) (s : string) : string :=
  match s with
  | EmptyString => EmptyString
  | String c s' =>
      if p c then remove_chars p s' else String c (remove_chars p s')
  end.

(** [astype(str)] on one cell. *)
Definition astype_str (pd : pandas) (c : cell) : string :=
  match c with
  | CNull => "nan"
  | CStr s => s
  | CNum q => str_of_num pd q
  end.

Definition count_true (l : list bool) : nat :=
  length (filter (λ b, b = true) l).

(** [series.str.contains("%").mean() > 0.5]: the mean of [k] hits among
    [n] values exceeds one half iff [n < 2 k]; the mean of an empty
    series is NaN, which exceeds nothing. *)
Definition is_percentage (series : list string) : bool :=
  (length series <? 2 * count_true (Text.contains "%" <$> series))%nat.

(** [.str.replace(r"[\$,]", "", regex=True).str.replace("%", "", regex=True)] *)
Definition strip_symbols (s : string) : string :=
  remove_chars (λ c, Ascii.eqb c "%")
    (remove_chars (λ c, Ascii.eqb c "$" || Ascii.eqb c ",") s).

(** The body of the loop of [normalize_values], on the cells of one
    column. *)
Definition normalize_series (pd : pandas) (col : list cell) : list cell :=
  let series := (λ c, strip is_space (astype_str pd c)) <$> col in
  let is_percentage := is_percentage series in
  let cleaned := strip_symbols <$> series in
  let numeric_series := to_numeric pd <$> cleaned in
  let numeric_series :=
    if is_percentage then (λ n, (λ q, q / 100)%Q <$> n) <$> numeric_series
    else numeric_series in
  zip_with (λ n orig, match n with Some q => CNum q | None => orig end)
           numeric_series col.

Definition is_number_or_null (c : cell) : bool :=
  match c with CStr _ => false | _ => true end.

Definition normalize_values (pd : pandas) (df : frame) : frame :=
  (λ col,
     match s_dtype col with
     | DObject | DString =>
         let vs := normalize_series pd (s_values col) in
         Series (s_name col)
                (if forallb is_number_or_null vs then DNumber else DObject) vs
     | _ => col
     end) <$> df.

(** A parser for plain signed decimals, [-?digits(.digits)?], the
    literals the examples use. *)
Definition digit_value (c : ascii) : option Z :=
  let n := Text.code c in
  if ((48 <=? n) && (n <=? 57))%N then Some (Z.of_N n - 48) else None.

Fixpoint parse_digits (acc : Z) (scale : positive) (s : string)
  : option (Z * positive * string) :=
  match s with
  | EmptyString => Some (acc, scale, EmptyString)
  | String c s' =>
      match digit_value c with
      | Some d => parse_digits (10 * acc + d) (10 * scale) s'
      | None => Some (acc, scale, s)
      end
  end.

Definition starts_with_digit (s : string) : bool :=
  match s with
  | String c _ => match digit_value c with Some _ => true | None => false end
  | EmptyString => false
  end.

Definition parse_unsigned (s : string) : option Q :=
  if starts_with_digit s then
    match parse_digits 0 1 s with
    | Some (n, _, EmptyString) => Some (n # 1)
    | Some (n, _, String "." frac) =>
        if starts_with_digit frac then
          match parse_digits n 1 frac with
          | Some (m, scale, EmptyString) => Some (m # scale)
          | _ => None
          end
        else None
    | _ => None
    end
  else None.

Definition parse_decimal (s : string) : option Q :=
  match s with
  | String "-" s' => Qopp <$> parse_unsigned s'
  | _ => parse_unsigned s
  end.

(** [pandas] restricted to decimal literals; the other entries are not
    exercised by the examples. *)
Definition decimal_pandas : pandas :=
  Pandas parse_decimal (λ _, "") (λ _, CNull) (λ _, []).

(** *** The dashboard-level cleaner *)

(** Building a frame from an entry and running [self.clean] on it goes
    through [pandas] from end to end; the three uses are parameters.  A
    cleaned frame is a value like any other ([VObj] when opaque). *)
Record frame_cleaning : Type := FrameCleaning {
  (** [self.clean(pd.DataFrame(rows, columns=headers) if headers and rows
      else pd.DataFrame(rows))] *)
  clean_table : pyval → pyval → result pyval;
  (** [self.clean(pd.DataFrame([entry]))] *)
  clean_entry : pydict → result pyval;
  (** [self.clean(pd.DataFrame([comp])).to_dict(orient="records")[0]] *)
  clean_component : pydict → result pydict
}.

(** [for x in xs: ...append(f(x))], stopping at the first exception. *)
Fixpoint for_each {A B} (f : A → result B) (l : list A) : result (list B) :=
  match l with
  | [] => Ok []
  | x :: l' => y ← f x; ys ← for_each f l'; Ok (y :: ys)
  end.

Definition clean_table_item (fc : frame_cleaning) (table : pyval)
  : result pyval :=
  match table with
  | VDict d =>
      clean_table fc (dict_get_default d "headers" (VList []))
                     (dict_get_default d "rows" (VList []))
  | _ => Ok table
  end.

(** The loops over [kpis], [filters] and [visuals] share this body. *)
Definition clean_entry_item (fc : frame_cleaning) (entry : pyval)
  : result pyval :=
  match entry with
  | VDict d => clean_entry fc d
  | _ => Ok entry
  end.

(** [comp_type in ["table", "kpi", "filter", "visual"]] *)
Definition is_structured (comp_type : pyval) : bool :=
  eq_str comp_type "table" || eq_str comp_type "kpi"
  || eq_str comp_type "filter" || eq_str comp_type "visual".

Definition clean_component_item (fc : frame_cleaning) (comp : pyval)
  : result pyval :=
  match comp with
  | VDict d =>
      let d := if dict_mem d "highlights" then d
               else dict_set d "highlights" (VList []) in
      let comp_type := dict_get_default d "type" (VStr "unknown") in
      if is_structured comp_type then
        let highlights := dict_get_default d "highlights" (VList []) in
        let d := dict_remove d "highlights" in
        let drill_state := dict_get_default d "drill_state" VNone in
        let d := dict_remove d "drill_state" in
        comp_cleaned ← clean_component fc d;
        let comp_cleaned := dict_set comp_cleaned "highlights" highlights in
        let comp_cleaned :=
          match drill_state with
          | VNone => comp_cleaned
          | _ => dict_set comp_cleaned "drill_state" drill_state
          end in
        Ok (VDict comp_cleaned)
      else Ok (VDict d)
  | _ => Ok comp
  end.

Definition clean_unified_dashboard_data (fc : frame_cleaning)
    (extracted : pydict) : result pyval :=
  let html_text := dict_get_default extracted "html_text" (VStr "") in
  let error := dict_get_default extracted "error" VNone in
  let source := dict_get_default extracted "source" (VStr "") in
  let auth_type := dict_get_default extracted "auth_type" (VStr "") in
  let drill_state := dict_get_default extracted "drill_state" (VDict []) in
  tables ← iter (dict_get_default extracted "tables" (VList []));
  tables ← for_each (clean_table_item fc) tables;
  kpis ← iter (dict_get_default extracted "kpis" (VList []));
  kpis ← for_each (clean_entry_item fc) kpis;
  filters ← iter (dict_get_default extracted "filters" (VList []));
  filters ← for_each (clean_entry_item fc) filters;
  visuals ← iter (dict_get_default extracted "visuals" (VList []));
  visuals ← for_each (clean_entry_item fc) visuals;
  components ← iter (dict_get_default extracted "components" (VList []));
  components ← for_each (clean_component_item fc) components;
  let layout := dict_get_default extracted "layout" (VDict []) in
  Ok (VDict [("tables", VList tables);
             ("kpis", VList kpis);
             ("filters", VList filters);
             ("visuals", VList visuals);
             ("layout", layout);
             ("components", VList components);
             ("html_text", html_text);
             ("error", error);
             ("source", source);
             ("auth_type", auth_type);
             ("drill_state", drill_state)]).

(** A cleaning that leaves every entry as it is. *)
Definition keep_as_is : frame_cleaning :=
  FrameCleaning (λ headers rows, Ok (VDict [("headers", headers);
                                             ("rows", rows)]))
                (λ d, Ok (VDict d))
                (λ d, Ok d).

(** *** Helpers *)

(** [flatten_data]: a dict is one record, a list is flattened item by
    item, anything else is wrapped as [{"value": data}]. *)
Fixpoint flatten_data (data : pyval) : list pyval :=
  match data with
  | VDict _ => [data]
  | VList l =>
      (fix items (l : list pyval) : list pyval :=
         match l with
         | [] => []
         | item :: l' => flatten_data item ++ items l'
         end) l
  | _ => [VDict [("value", data)]]
  end.

End DataCleaner.

Import DataCleaner.

(** ** Vocabulary of the statements *)

(** The number of values of a column whose text contains a percent sign. *)
Definition percent_count (pd : pandas) (col : list cell) : nat :=
  length (filter (λ c, Text.contains "%" (astype_str pd c) = true) col).

Definition supported_strategies : list string :=
  ["drop"; "fill_mean"; "fill_constant"].


Definition cleaned_entries : list string :=
  ["tables"; "kpis"; "filters"; "visuals"; "components"].

(** A string all of whose characters satisfy [p]. *)
Fixpoint all_chars (p : ascii → bool) (s : string) : bool :=
  match s with
  | EmptyString => true
  | String c s' => p c && all_chars p s'
  end.

(** The characters a slug is made of: digits, lower-case letters and the
    underscore. *)
Definition is_slug_char (c : ascii) : bool :=
  let n := Text.code c in
  (((48 <=? n) && (n <=? 57)) || ((97 <=? n) && (n <=? 122)) || (n =? 95))%N.

(** Slug characters only and no two underscores in a row;
    [after_underscore] tells that the character before [s] is an
    underscore (or that [s] starts the name, where none is allowed). *)
Fixpoint tidy (after_underscore : bool) (s : string) : bool :=
  match s with
  | EmptyString => true
  | String c s' =>
      if is_underscore c then negb after_underscore && tidy true s'
      else is_slug_char c && tidy false s'
  end.

(** [tidy], and the last character is not an underscore. *)
Fixpoint closed (after_underscore : bool) (s : string) : bool :=
  match s with
  | EmptyString => negb after_underscore
  | String c s' =>
      if is_underscore c then negb after_underscore && closed true s'
      else is_slug_char c && closed false s'
  end.

(** The names slugification produces: the empty name, or slug characters
    with single underscores strictly inside. *)
Definition is_slug (s : string) : bool :=
  match s with
  | EmptyString => true
  | _ => closed true s
  end.

(** The loop of [_deduplicate_columns] from a given [Counter]. *)
Definition dedup_from (counts : gmap string nat) (columns : list string)
  : list string :=
  (foldl dedup_step (counts, []) columns).2.

(** Every canonical name of the alias table is a slug and is not itself
    an alias. *)
Definition canonical_targets (semantic_map : list (string * list string))
  : Prop :=
  map_Forall (λ _ std, is_slug std = true
                       ∧ reverse_map semantic_map !! std = None)
             (reverse_map semantic_map).

(** A visual record whose [name] is the given one. *)
Definition named (visual_name : string) (visual : pyval) : bool :=
  match visual with
  | VDict d => eq_str (dict_get_default d "name" VNone) visual_name
  | _ => false
  end.

(** What the drill endpoints raise on a [visuals] entry that is a list. *)
Definition list_has_no_values : exn :=
  Exn "AttributeError" "'list' object has no attribute 'values'".

(** How often [c] occurs in [l]. *)
Definition occurrences (c : string) (l : list string) : nat :=
  length (filter (λ x, x = c) l).

(** The default alias table without its alias ["revenue_$"]. *)
Definition semantic_map_without_dollar : list (string * list string) :=
  [("revenue_usd", ["sales_usd"; "total_sales"]);
   ("date", ["order_date"; "created_on"; "timestamp"])].

(** Every column of the frame has [n] rows. *)
Definition rectangular (n : nat) (df : frame) : Prop :=
  Forall (λ col, length (s_values col) = n) df.

(** No value of the frame is missing. *)
Definition complete (df : frame) : Prop :=
  Forall (λ col, Forall (λ v, is_null v = false) (s_values col)) df.

(** The values [for x in v] can visit. *)
Definition is_iterable (v : pyval) : bool :=
  match v with
  | VList _ | VDict _ | VStr _ => true
  | _ => false
  end.

(** A Tableau dashboard whose visual [Sales] is two levels down. *)
Definition sales_drilled : collaborators :=
  Collaborators
    unreachable unreachable unreachable
    (λ _, Ok (VDict [("status", VStr "success"); ("source", VStr "tableau");
                      ("content", VStr "<html></html>")]))
    unreachable unreachable unreachable
    (λ _, Ok (VDict [("status", VStr "success");
                      ("visuals",
                       VDict [("v0", VDict [("name", VStr "Profit")]);
                              ("v1", VDict [("name", VStr "Sales");
                                            ("drill_state",
                                             VList [VStr "Year";
                                                    VStr "Quarter"])])])])).

(** The vendor connector [connect_bi_dashboard] calls for a source and
    auth_type, if any. *)
Definition vendor_connector (c : collaborators) (source auth_type : string)
  : option (pydict → result pyval) :=
  if String.eqb source "powerbi" then
    if String.eqb auth_type "private" then Some (connect_private_powerbi c)
    else if String.eqb auth_type "public" then Some (connect_public_powerbi c)
    else None
  else if String.eqb source "tableau" then
    if String.eqb auth_type "private" then Some (connect_private_tableau c)
    else if String.eqb auth_type "public" then Some (connect_public_tableau c)
    else None
  else None.

(** * Properties *)

(** ** Values and dicts *)

Lemma dict_get_set_eq (d : pydict) k v : dict_get (dict_set d k v) k = Some v.
Proof.
  induction d as [|[k' v'] d IH]; simpl.
  - by rewrite String.eqb_refl.
  - destruct (String.eqb k' k) eqn:E; simpl; rewrite E; done.
Qed.

Lemma dict_get_set_ne (d : pydict) k k' v :
  k ≠ k' → dict_get (dict_set d k v) k' = dict_get d k'.
Proof.
  intros Hne. induction d as [|[k0 v0] d IH]; simpl.
  - destruct (String.eqb k k') eqn:E; [|done].
    apply String.eqb_eq in E. done.
  - destruct (String.eqb k0 k) eqn:E; simpl.
    + apply String.eqb_eq in E as ->.
      destruct (String.eqb k k') eqn:E'; [|done].
      apply String.eqb_eq in E'. done.
    + destruct (String.eqb k0 k'); done.
Qed.

(** ** The failure payload *)

Lemma fail_result_status source auth_type error :
  field (_fail_result source auth_type error) "status" = Some (VStr "failed").
Proof. reflexivity. Qed.

Lemma fail_result_error source auth_type error :
  field (_fail_result source auth_type error) "error" = Some error.
Proof. reflexivity. Qed.

(** Every container of a failure payload is empty, and the one schema
    field it does not carry is [drill_state]. *)
Lemma fail_result_shape source auth_type error :
  let r := _fail_result source auth_type error in
  Forall (λ k, is_empty_container <$> field r k = Some true)
         ["tables"; "kpis"; "filters"; "visuals"; "layout"; "components"]
  ∧ filter (λ k, field r k = None) schema_fields = ["drill_state"].
Proof.
  split.
  - repeat constructor.
  - reflexivity.
Qed.

(** Apart from [drill_state], every result of [extract_dashboard] has
    the fields of the schema, whatever the connector and the adapter do. *)
Lemma ensure_unified_schema_core_fields result source auth_type ds r :
  _ensure_unified_schema result source auth_type ds = Ok r →
  Forall (λ k, is_Some (field r k)) core_fields
  ∧ is_Some (field r "drill_state").
Proof.
  unfold _ensure_unified_schema.
  destruct result; simpl; try discriminate.
  destruct (iter _); simpl; [|discriminate].
  intros [= <-]. split; [repeat constructor|]; simpl; eauto.
Qed.

Lemma fail_result_core_fields source auth_type error :
  Forall (λ k, is_Some (field (_fail_result source auth_type error) k))
         core_fields.
Proof. repeat constructor; simpl; eauto. Qed.

Lemma extract_dashboard_core_fields connect c source auth_type ds kwargs :
  Forall (λ k, is_Some (field (extract_dashboard_with connect c source
                                 auth_type ds kwargs) k))
         core_fields.
Proof.
  unfold extract_dashboard_with, extract_dashboard_try.
  destruct (connect _ _ _) as [conn|]; simpl;
    [|apply fail_result_core_fields].
  destruct (getitem conn "status") as [status|]; simpl;
    [|apply fail_result_core_fields].
  destruct (negb _).
  - destruct (get conn "error" VNone); simpl; apply fail_result_core_fields.
  - destruct (call_adapter _ _ _ _ _ _) as [result|]; simpl;
      [|apply fail_result_core_fields].
    destruct (_ensure_unified_schema result source auth_type ds) as [r|] eqn:E.
    + apply ensure_unified_schema_core_fields in E as [Hcore _].
      by destruct result; try apply fail_result_core_fields.
    + by destruct result; try apply fail_result_core_fields; rewrite E;
        apply fail_result_core_fields.
Qed.

(** C1.  The connection scenario of the specification (the connector
    answers [{status: "failed", error: "auth expired"}]): the dashboard
    returned is the failure payload, with an error, empty containers and
    eleven of the twelve schema fields; the field [drill_state], which the
    schema pass of the success path always writes, is absent. *)
Theorem failed_connection_result_lacks_drill_state :
  let r := extract_dashboard auth_expired "powerbi" "private" VNone [] in
  r = _fail_result "powerbi" "private" (VStr "auth expired")
  ∧ field r "status" = Some (VStr "failed")
  ∧ field r "drill_state" = None
  ∧ filter (λ k, field r k = None) schema_fields = ["drill_state"].
Proof. repeat split. Qed.

(** ** Error containment *)



Lemma call_adapter_unsupported c source auth_type conn ds kwargs :
  supported source auth_type = false →
  call_adapter c source auth_type conn ds kwargs = Ok VNone.
Proof.
  unfold supported, call_adapter.
  destruct (String.eqb source "powerbi"), (String.eqb source "tableau"),
    (String.eqb auth_type "private"), (String.eqb auth_type "public");
    simpl; done.
Qed.



Lemma extract_dashboard_unsupported connect c source auth_type ds kwargs :
  supported source auth_type = false →
  field (extract_dashboard_with connect c source auth_type ds kwargs) "status"
  = Some (VStr "failed").
Proof.
  intros Hu. unfold extract_dashboard_with, extract_dashboard_try.
  destruct (connect _ _ _) as [conn|]; simpl; [|done].
  destruct (getitem conn "status") as [status|]; simpl; [|done].
  destruct (negb _).
  - destruct (get conn "error" VNone); simpl; done.
  - rewrite call_adapter_unsupported by done. done.
Qed.


(** With the repository's own connector an exception of a vendor
    connector is contained one level down: [connect_bi_dashboard] answers
    a failed connection whose error records [str(e)], and the dashboard
    is the failure payload carrying that error. *)
Lemma extract_dashboard_vendor_connector_raises c source auth_type ds kwargs e :
  source ≠ EmptyString →
  connect_dispatch c source auth_type
    (dict_set (dict_remove kwargs "url") "url"
              (dict_get_default kwargs "url" VNone)) = Raise e →
  extract_dashboard c source auth_type ds kwargs
  = _fail_result source auth_type
      (VDict [("type", VStr "exception"); ("message", VStr (exn_str e))]).
Proof.
  intros Hsource Hdispatch.
  unfold extract_dashboard, extract_dashboard_with, extract_dashboard_try,
    connect_bi_dashboard.
  destruct (String.eqb_spec source "") as [->|_]; [done|].
  by rewrite Hdispatch.
Qed.



(** ** The schema pass *)

Lemma ensure_highlights_dict (d : pydict) :
  ∃ d', ensure_highlights (VDict d) = VDict d'
        ∧ dict_get d' "highlights"
          = Some (default (VList []) (dict_get d "highlights"))
        ∧ ∀ k, k ≠ "highlights" → dict_get d' k = dict_get d k.
Proof.
  unfold ensure_highlights, dict_mem.
  destruct (dict_get d "highlights") as [h|] eqn:E.
  - exists d. by rewrite E.
  - exists (dict_set d "highlights" (VList [])). split; [done|]. split.
    + apply dict_get_set_eq.
    + intros k Hk. by apply dict_get_set_ne.
Qed.

Lemma ensure_highlights_other (v : pyval) :
  is_dict v = false → ensure_highlights v = v.
Proof. by destruct v. Qed.

(** On a record whose [components] entry can be iterated, the schema pass
    returns, and what it returns is determined entry by entry. *)
Lemma ensure_unified_schema_ok (r : pydict) source auth_type ds comps :
  iter (dict_get_default r "components" (VList [])) = Ok comps →
  _ensure_unified_schema (VDict r) source auth_type ds
  = Ok (VDict
          [("status", dict_get_default r "status" (VStr "success"));
           ("source", VStr source);
           ("auth_type", VStr auth_type);
           ("tables", dict_get_default r "tables" (VList []));
           ("kpis", dict_get_default r "kpis" (VList []));
           ("filters", dict_get_default r "filters" (VList []));
           ("visuals", dict_get_default r "visuals" (VList []));
           ("layout", dict_get_default r "layout" (VDict []));
           ("components", VList (ensure_highlights <$> comps));
           ("html_text", dict_get_default r "html_text" (VStr ""));
           ("drill_state",
            dict_get_default r "drill_state" (por ds (VDict [])));
           ("error", dict_get_default r "error" VNone)]).
Proof.
  intros Hiter. unfold _ensure_unified_schema. simpl. rewrite Hiter. done.
Qed.

(** C3, as stated, fails: an entry of [components] that is not a record
    (here a string) passes the [isinstance(comp, dict)] guard untouched
    and exposes no [highlights]. *)
Lemma non_record_component_has_no_highlights :
  ¬ (∀ (result : pydict) source auth_type ds unified comps comp,
       _ensure_unified_schema (VDict result) source auth_type ds = Ok unified →
       field unified "status" = Some (VStr "success") →
       field unified "components" = Some (VList comps) →
       comp ∈ comps →
       exposes_highlights comp = true).
Proof.
  intros Hclaim.
  specialize (Hclaim
    [("status", VStr "success"); ("components", VList [VStr "sales_chart"])]
    "tableau" "public" VNone _ [VStr "sales_chart"] (VStr "sales_chart")
    eq_refl eq_refl eq_refl).
  simpl in Hclaim. discriminate Hclaim. apply list_elem_of_here.
Qed.

(** C3, amended.  When the adapter's [components] entry is an ordered
    sequence (or is absent), the schema pass returns a dashboard whose
    components are, position by position: for a record, the same record
    with a [highlights] entry, equal to the adapter's when it had one and
    to [[]] otherwise, every other entry unchanged; for anything that is
    not a record, the entry itself. *)
Theorem ensure_unified_schema_injects_highlights
    (result : pydict) (source auth_type : string) (drill_state : pyval)
    (items : list pyval) :
  dict_get_default result "components" (VList []) = VList items →
  ∃ unified comps,
    _ensure_unified_schema (VDict result) source auth_type drill_state
    = Ok unified
    ∧ field unified "components" = Some (VList comps)
    ∧ length comps = length items
    ∧ (∀ i d, items !! i = Some (VDict d) →
         ∃ d', comps !! i = Some (VDict d')
               ∧ exposes_highlights (VDict d') = true
               ∧ dict_get d' "highlights"
                 = Some (default (VList []) (dict_get d "highlights"))
               ∧ ∀ k, k ≠ "highlights" → dict_get d' k = dict_get d k)
    ∧ (∀ i v, items !! i = Some v → is_dict v = false → comps !! i = Some v).
Proof.
  intros Hitems.
  eexists _, (ensure_highlights <$> items). split.
  { apply ensure_unified_schema_ok. by rewrite Hitems. }
  split; [done|]. split; [by rewrite length_fmap|]. split.
  - intros i d Hi.
    destruct (ensure_highlights_dict d) as (d' & Hd' & Hh & Hother).
    exists d'. split; [|split; [|done]].
    + rewrite list_lookup_fmap, Hi. cbn [fmap option_fmap option_map].
      by rewrite Hd'.
    + unfold exposes_highlights, dict_mem. by rewrite Hh.
  - intros i v Hi Hv. rewrite list_lookup_fmap, Hi.
    cbn [fmap option_fmap option_map]. by rewrite ensure_highlights_other.
Qed.

Lemma ensure_unified_schema_injects_highlights_witness :
  ∃ unified comps,
    _ensure_unified_schema
      (VDict [("components",
               VList [VDict [("type", VStr "table")]; VStr "note";
                      VDict [("type", VStr "kpi");
                             ("highlights", VList [VInt 3])]])])
      "tableau" "public" VNone = Ok unified
    ∧ field unified "components" = Some (VList comps)
    ∧ comps !! 0%nat
      = Some (VDict [("type", VStr "table"); ("highlights", VList [])])
    ∧ comps !! 1%nat = Some (VStr "note").
Proof.
  destruct (ensure_unified_schema_injects_highlights
              [("components",
                VList [VDict [("type", VStr "table")]; VStr "note";
                       VDict [("type", VStr "kpi");
                              ("highlights", VList [VInt 3])]])]
              "tableau" "public" VNone _ eq_refl)
    as (unified & comps & Hrun & Hcomps & _ & _ & _).
  exists unified, comps. split; [exact Hrun|]. split; [exact Hcomps|].
  simpl in Hrun. injection Hrun as <-. simpl in Hcomps.
  injection Hcomps as <-. split; reflexivity.
Defined.

(** C5, as stated, fails: the adapter answers with a [drill_state] of its
    own, the caller supplies another, and the dashboard carries the
    adapter's. *)
Lemma adapter_drill_state_wins :
  ¬ (∀ (result : pydict) source auth_type (prior : pydict) unified,
       _ensure_unified_schema (VDict result) source auth_type (VDict prior)
       = Ok unified →
       field unified "drill_state" = Some (VDict prior)).
Proof.
  intros Hclaim.
  specialize (Hclaim
    [("status", VStr "success");
     ("drill_state", VDict [("Sales", VList [VStr "Region"])])]
    "tableau" "private" [("Sales", VList [VStr "Year"])] _ eq_refl).
  discriminate Hclaim.
Qed.

(** C5, amended.  The [drill_state] of the emitted dashboard is the one
    the adapter returned whenever the adapter's result has that entry;
    the caller-supplied prior [drill_state] is only the default for an
    adapter result without it, an empty mapping standing in for a prior
    state that is [None] or empty.  Nothing is merged. *)
Theorem ensure_unified_schema_drill_state
    (result : pydict) (source auth_type : string) (drill_state : pyval)
    (comps : list pyval) :
  iter (dict_get_default result "components" (VList [])) = Ok comps →
  ∃ unified,
    _ensure_unified_schema (VDict result) source auth_type drill_state
    = Ok unified
    ∧ field unified "drill_state"
      = Some (match dict_get result "drill_state" with
              | Some adapter_state => adapter_state
              | None => if truthy drill_state then drill_state else VDict []
              end).
Proof.
  intros Hiter. eexists. split.
  - by apply ensure_unified_schema_ok.
  - simpl. unfold dict_get_default, por.
    by destruct (dict_get result "drill_state").
Qed.

Lemma ensure_unified_schema_drill_state_witness :
  ∃ unified,
    _ensure_unified_schema (VDict [("status", VStr "success")])
      "tableau" "private" (VDict [("Sales", VList [VStr "Year"])])
    = Ok unified
    ∧ field unified "drill_state"
      = Some (VDict [("Sales", VList [VStr "Year"])]).
Proof.
  exact (ensure_unified_schema_drill_state
           [("status", VStr "success")] "tableau" "private"
           (VDict [("Sales", VList [VStr "Year"])]) [] eq_refl).
Defined.

(** When [components] is a mapping, the loop visits its keys. *)
Lemma ensure_unified_schema_mapping_components
    (result m : pydict) source auth_type ds :
  dict_get_default result "components" (VList []) = VDict m →
  ∃ unified,
    _ensure_unified_schema (VDict result) source auth_type ds = Ok unified
    ∧ field unified "components" = Some (VList (dict_keys m)).
Proof.
  intros Hm. eexists. split.
  - apply ensure_unified_schema_ok. by rewrite Hm.
  - simpl. do 2 f_equal. unfold dict_keys. rewrite <-list_fmap_compose.
    apply list_fmap_ext. by intros i [k v] _.
Qed.

(** C7.  An adapter result in the vendor-API shape, [components] a
    mapping from names to records: the emitted [components] is the
    sequence of the mapping's keys, [["table_1", "kpi_1"]]; the records,
    which are the mapping's values, are discarded. *)
Theorem mapping_components_emit_keys :
  let result :=
    VDict [("status", VStr "success");
           ("components",
            VDict [("table_1", VDict [("type", VStr "table");
                                      ("rows", VList []);
                                      ("highlights", VList [])]);
                   ("kpi_1", VDict [("type", VStr "kpi");
                                    ("value", VInt 5);
                                    ("highlights", VList [])])])] in
  ∃ unified,
    _ensure_unified_schema result "powerbi" "private" VNone = Ok unified
    ∧ field unified "components"
      = Some (VList [VStr "table_1"; VStr "kpi_1"]).
Proof. eexists. split; reflexivity. Qed.

(** ** Drilling up *)

(** The first visual of the given name decides: with an empty
    [drill_state], or none, [pop] raises. *)
Lemma drill_up_loop_empty_state visual_name (d : pydict) rest :
  dict_get_default d "name" VNone = VStr visual_name →
  dict_get_default d "drill_state" (VList []) = VList [] →
  drill_up_loop visual_name (VDict d :: rest)
  = Raise (Exn "IndexError" "pop from empty list").
Proof.
  intros Hname Hstate. simpl. rewrite Hname. simpl.
  rewrite String.eqb_refl. unfold dict_mem, dict_get_default in *.
  destruct (dict_get d "drill_state") as [s|] eqn:E; simpl in *.
  - rewrite E. simpl. by subst s.
  - rewrite dict_get_set_eq. done.
Qed.

(** C4.  [drill_up] on the visual [Sales], which is present in the
    snapshot with the empty [drill_state]: the unguarded [pop] raises
    [IndexError] out of the endpoint, and no reported failure is
    returned.  The same happens when the snapshot has no [drill_state]
    for the visual, which the code first sets to [[]].  A visual that is
    absent, by contrast, is reported as a failure. *)
Theorem drill_up_on_empty_state_raises :
  drill_up sales_at_top "Sales" "tableau" "public" []
  = Raise (Exn "IndexError" "pop from empty list")
  ∧ drill_up sales_undrilled "Sales" "tableau" "public" []
    = Raise (Exn "IndexError" "pop from empty list")
  ∧ drill_up sales_at_top "Profit" "tableau" "public" []
    = Ok (VDict [("status", VStr "failed");
                 ("error", VStr "Visual Profit not found.")]).
Proof. repeat split. Qed.

(** ** Missing values *)

(** What two of the supported strategies leave behind: [drop] keeps only
    rows without a missing value, and [fill_constant] with a constant that
    is not itself missing leaves none. *)
Lemma select_rows_complete (df : frame) col i vs :
  col ∈ df →
  (∀ j v, vs !! j = Some v → s_values col !! (i + j)%nat = Some v) →
  Forall (λ v, is_null v = false)
         (select_rows (λ i, negb (row_has_null df i)) i vs).
Proof.
  intros Hcol. revert i. induction vs as [|v vs IH]; intros i Hvs; simpl.
  { constructor. }
  assert (Forall (λ v, is_null v = false)
            (select_rows (λ i, negb (row_has_null df i)) (S i) vs)) as Hrest.
  { apply IH. intros j w Hj. specialize (Hvs (S j) w Hj).
    by replace (S i + j)%nat with (i + S j)%nat by lia. }
  destruct (row_has_null df i) eqn:Hrow; simpl; [done|].
  constructor; [|done].
  specialize (Hvs 0%nat v eq_refl). rewrite Nat.add_0_r in Hvs.
  unfold row_has_null in Hrow.
  destruct (is_null v) eqn:Hv; [|done].
  assert (existsb (λ col, match s_values col !! i with
                          | Some c => is_null c
                          | None => false
                          end) df = true) as Hex; [|congruence].
  apply existsb_exists. exists col. split.
  - by apply list_elem_of_In.
  - by rewrite Hvs.
Qed.

Lemma dropna_complete (df : frame) col :
  col ∈ dropna df → Forall (λ v, is_null v = false) (s_values col).
Proof.
  unfold dropna. intros (col0 & -> & Hcol0)%list_elem_of_fmap. simpl.
  by apply (select_rows_complete df col0).
Qed.

Lemma fillna_complete (value : cell) (df : frame) col :
  is_null value = false →
  col ∈ fillna value df → Forall (λ v, is_null v = false) (s_values col).
Proof.
  unfold fillna, fill_cells.
  intros Hvalue (col0 & -> & _)%list_elem_of_fmap. simpl.
  apply Forall_fmap, Forall_forall. intros v _. simpl.
  by destruct (is_null v) eqn:Hv.
Qed.

(** C8, as stated, fails on the class of the error: the code has no
    [ConfigurationError], and no unsupported strategy makes
    [handle_missing_values] raise one.  With the strategy ["median"] the
    error raised is a [ValueError]. *)
Lemma unsupported_strategy_raises_no_configuration_error :
  ¬ (∀ pd (strategy : string) fill_constant df,
       strategy ∉ supported_strategies →
       ∃ message,
         handle_missing_values pd strategy fill_constant df
         = Raise (Exn "ConfigurationError" message)).
Proof.
  intros Hclaim.
  destruct (Hclaim decimal_pandas "median" (CNum 0)
              [Series "sales" DObject [CStr "10"; CNull]]) as [message H].
  - unfold supported_strategies. intros Hin.
    repeat (apply elem_of_cons in Hin as [Hin|Hin]; [discriminate Hin|]).
    by apply elem_of_nil in Hin.
  - vm_compute in H. discriminate H.
Qed.

(** C8, amended.  A strategy outside [drop], [fill_mean],
    [fill_constant] makes [handle_missing_values] raise a [ValueError],
    whatever the frame, with the message that names the strategy; each
    of the three supported strategies returns a frame. *)
Theorem handle_missing_values_reports_unsupported
    (pd : pandas) (strategy : string) (fill_constant : cell) (df : frame) :
  (strategy ∉ supported_strategies →
     handle_missing_values pd strategy fill_constant df
     = Raise (Exn "ValueError"
                  ("Unsupported missing value strategy: " +:+ strategy)))
  ∧ (strategy ∈ supported_strategies →
     ∃ df', handle_missing_values pd strategy fill_constant df = Ok df').
Proof.
  unfold handle_missing_values, supported_strategies. split.
  - intros Hnot.
    destruct (String.eqb_spec strategy "drop") as [->|_].
    { exfalso. apply Hnot. set_solver. }
    destruct (String.eqb_spec strategy "fill_mean") as [->|_].
    { exfalso. apply Hnot. set_solver. }
    destruct (String.eqb_spec strategy "fill_constant") as [->|_].
    { exfalso. apply Hnot. set_solver. }
    done.
  - intros Hin.
    repeat (apply elem_of_cons in Hin as [->|Hin]; [simpl; eauto|]).
    by apply elem_of_nil in Hin.
Qed.

Lemma handle_missing_values_reports_unsupported_witness :
  handle_missing_values decimal_pandas "median" (CNum 0)
    [Series "sales" DObject [CStr "10"; CNull]]
  = Raise (Exn "ValueError" "Unsupported missing value strategy: median")
  ∧ ∃ df', handle_missing_values decimal_pandas "drop" (CNum 0)
             [Series "sales" DObject [CStr "10"; CNull]] = Ok df'.
Proof.
  split.
  - apply (handle_missing_values_reports_unsupported
             decimal_pandas "median" (CNum 0)
             [Series "sales" DObject [CStr "10"; CNull]]).
    unfold supported_strategies. intros Hin.
    repeat (apply elem_of_cons in Hin as [Hin|Hin]; [discriminate Hin|]).
    by apply elem_of_nil in Hin.
  - apply (handle_missing_values_reports_unsupported
             decimal_pandas "drop" (CNum 0)
             [Series "sales" DObject [CStr "10"; CNull]]).
    apply list_elem_of_here.
Defined.

(** ** The frame of the dashboard cleaner *)



Lemma highlights_after_drill_state (cc : pydict) h ds :
  dict_get match ds with
           | VNone => dict_set cc "highlights" h
           | _ => dict_set (dict_set cc "highlights" h) "drill_state" ds
           end "highlights" = Some h.
Proof.
  destruct ds; rewrite ?dict_get_set_ne by done; apply dict_get_set_eq.
Qed.

(** The cleaner re-establishes [highlights] on every record it returns
    among the components, with the value the record came with. *)
Lemma clean_component_item_highlights fc (d : pydict) v :
  clean_component_item fc (VDict d) = Ok v →
  field v "highlights" = Some (default (VList []) (dict_get d "highlights")).
Proof.
  unfold clean_component_item, dict_mem, dict_get_default.
  destruct (dict_get d "highlights") as [h|] eqn:E.
  - rewrite E. destruct (is_structured _).
    + destruct (clean_component fc _) as [cc|]; [|discriminate].
      intros [= <-]. apply highlights_after_drill_state.
    + by intros [= <-].
  - rewrite !dict_get_set_eq. destruct (is_structured _).
    + destruct (clean_component fc _) as [cc|]; [|discriminate].
      intros [= <-]. apply highlights_after_drill_state.
    + intros [= <-]. apply dict_get_set_eq.
Qed.



(** ** Scalar values *)

Lemma contains_percent_cons a s :
  Text.contains "%" (String a s) = Ascii.eqb "%" a || Text.contains "%" s.
Proof. simpl. by rewrite andb_true_r. Qed.

Lemma space_is_not_percent a : is_space a = true → Ascii.eqb "%" a = false.
Proof.
  intros Hs. destruct (Ascii.eqb_spec "%" a) as [<-|]; [|done].
  discriminate Hs.
Qed.

Lemma contains_percent_lstrip s :
  Text.contains "%" (lstrip is_space s) = Text.contains "%" s.
Proof.
  induction s as [|a s IH]; [done|].
  cbn [lstrip]. destruct (is_space a) eqn:E; [|done].
  by rewrite IH, contains_percent_cons, space_is_not_percent.
Qed.

Lemma contains_percent_rstrip s :
  Text.contains "%" (rstrip is_space s) = Text.contains "%" s.
Proof.
  induction s as [|a s IH]; [done|].
  rewrite contains_percent_cons, <-IH. cbn [rstrip].
  destruct (rstrip is_space s) as [|b r].
  - destruct (is_space a) eqn:E.
    + by rewrite space_is_not_percent.
    + by rewrite contains_percent_cons.
  - by rewrite contains_percent_cons.
Qed.

Lemma contains_percent_strip s :
  Text.contains "%" (strip is_space s) = Text.contains "%" s.
Proof. unfold strip. by rewrite contains_percent_rstrip, contains_percent_lstrip. Qed.

Lemma count_true_percent pd col :
  count_true (Text.contains "%"
              <$> ((λ c, strip is_space (astype_str pd c)) <$> col))
  = percent_count pd col.
Proof.
  unfold count_true, percent_count.
  induction col as [|c col IH]; [done|].
  rewrite !fmap_cons, !filter_cons, contains_percent_strip.
  repeat case_decide; simpl; congruence.
Qed.

Lemma normalize_series_lookup pd col i c :
  col !! i = Some c →
  normalize_series pd col !! i
  = Some match to_numeric pd (strip_symbols (strip is_space (astype_str pd c))) with
         | Some q =>
             CNum (if decide (length col < 2 * percent_count pd col)%nat
                   then (q / 100)%Q else q)
         | None => c
         end.
Proof.
  intros Hi. unfold normalize_series, is_percentage.
  rewrite count_true_percent, length_fmap.
  rewrite lookup_zip_with, Hi.
  destruct (Nat.ltb_spec (length col) (2 * percent_count pd col)) as [Hlt|Hge].
  - rewrite !list_lookup_fmap, Hi. simpl.
    destruct (to_numeric pd _); simpl; [|done].
    by rewrite decide_True.
  - rewrite !list_lookup_fmap, Hi. simpl.
    destruct (to_numeric pd _); simpl; [|done].
    rewrite decide_False by lia. done.
Qed.

(** C9, as stated, fails at exactly one half: of the two values ["45%"]
    and ["10"], 50% contain a percent sign, and ["45%"] is cleaned to 45,
    not to 45/100. *)
Lemma half_percent_column_is_not_divided :
  ¬ (∀ pd (col : list cell) i s q,
       (length col ≤ 2 * percent_count pd col)%nat →
       col !! i = Some (CStr s) →
       to_numeric pd (strip_symbols (strip is_space s)) = Some q →
       normalize_series pd col !! i = Some (CNum (q / 100)%Q)).
Proof.
  intros Hclaim.
  specialize (Hclaim decimal_pandas [CStr "45%"; CStr "10"] 0%nat "45%"
                     (45 # 1)%Q).
  vm_compute in Hclaim.
  specialize (Hclaim (le_n 2) eq_refl eq_refl). discriminate Hclaim.
Qed.

(** C9, amended.  Each value of a string column is stripped of blanks,
    of [$] and [,] and of [%] and converted; a value that converts becomes
    that number, divided by 100 when MORE THAN half of the column's values
    contain [%] (at exactly one half it is not divided); a value that does
    not convert stays as it was.  The column keeps its length, and no
    value raises.  So a column made of ["45%"] cleans to 45/100 and one
    made of ["$1,200"] to 1200, given that ["45"] and ["1200"] convert to
    45 and 1200. *)
Theorem normalize_series_converts_or_keeps (pd : pandas) (col : list cell) :
  length (normalize_series pd col) = length col
  ∧ (∀ i c, col !! i = Some c →
       let text := strip_symbols (strip is_space (astype_str pd c)) in
       (∀ q, to_numeric pd text = Some q →
          normalize_series pd col !! i
          = Some (CNum (if decide (length col < 2 * percent_count pd col)%nat
                        then (q / 100)%Q else q)))
       ∧ (to_numeric pd text = None → normalize_series pd col !! i = Some c))
  ∧ (to_numeric pd "45" = Some (45 # 1)%Q →
       normalize_series pd [CStr "45%"] = [CNum (45 # 100)%Q])
  ∧ (to_numeric pd "1200" = Some (1200 # 1)%Q →
       normalize_series pd [CStr "$1,200"] = [CNum (1200 # 1)%Q]).
Proof.
  split; [|split; [|split]].
  - unfold normalize_series. rewrite length_zip_with.
    destruct (is_percentage _); rewrite !length_fmap; lia.
  - intros i c Hi text. split.
    + intros q Hq. rewrite (normalize_series_lookup _ _ _ _ Hi).
      fold text. by rewrite Hq.
    + intros Hq. rewrite (normalize_series_lookup _ _ _ _ Hi).
      fold text. by rewrite Hq.
  - intros H45. unfold normalize_series. simpl. unfold strip_symbols. simpl.
    by rewrite H45.
  - intros H1200. unfold normalize_series. simpl. unfold strip_symbols. simpl.
    by rewrite H1200.
Qed.

Lemma normalize_series_converts_or_keeps_witness :
  normalize_series decimal_pandas [CStr "45%"] = [CNum (45 # 100)%Q]
  ∧ normalize_series decimal_pandas [CStr "$1,200"] = [CNum (1200 # 1)%Q]
  ∧ normalize_series decimal_pandas [CStr "45%"; CStr "n/a"; CStr "5%"] !! 1%nat
    = Some (CStr "n/a")
  ∧ normalize_series decimal_pandas [CStr "45%"; CStr "n/a"; CStr "5%"] !! 2%nat
    = Some (CNum (5 # 100)%Q).
Proof.
  destruct (normalize_series_converts_or_keeps decimal_pandas [CStr "45%"])
    as (_ & _ & H45 & _).
  destruct (normalize_series_converts_or_keeps decimal_pandas [CStr "$1,200"])
    as (_ & _ & _ & H1200).
  destruct (normalize_series_converts_or_keeps decimal_pandas
              [CStr "45%"; CStr "n/a"; CStr "5%"]) as (_ & Hcol & _).
  split; [apply H45; reflexivity|].
  split; [apply H1200; reflexivity|].
  split.
  - apply (Hcol 1%nat (CStr "n/a")); reflexivity.
  - apply (proj1 (Hcol 2%nat (CStr "5%") eq_refl) (5 # 1)%Q). reflexivity.
Defined.

(** ** Column names *)

(** *** Slugs are fixed by slugification *)

Lemma slug_char_cases c :
  is_slug_char c = true →
  is_space c = false ∧ is_word c = true ∧ Text.lower_char c = c.
Proof.
  destruct c as [[] [] [] [] [] [] [] []]; vm_compute; intros; done.
Qed.

Lemma lowered_word_is_slug_char c :
  is_word (Text.lower_char c) = true → is_slug_char (Text.lower_char c) = true.
Proof.
  destruct c as [[] [] [] [] [] [] [] []]; vm_compute; intros; done.
Qed.

Lemma underscore_is_slug_char c : is_underscore c = true → is_slug_char c = true.
Proof. unfold is_underscore. intros ->%Ascii.eqb_eq. done. Qed.

Lemma is_underscore_eq c : is_underscore c = true → c = "_"%char.
Proof. unfold is_underscore. by intros ->%Ascii.eqb_eq. Qed.

Lemma closed_all_slug b s : closed b s = true → all_chars is_slug_char s = true.
Proof.
  revert b. induction s as [|c s IH]; intros b; simpl; [done|].
  destruct (is_underscore c) eqn:E.
  - intros [_ H]%andb_true_iff. rewrite (underscore_is_slug_char _ E).
    simpl. eauto.
  - intros [-> H]%andb_true_iff. simpl. eauto.
Qed.

Lemma closed_weaken s : closed true s = true → closed false s = true.
Proof. destruct s as [|c s]; simpl; [done|]. by destruct (is_underscore c). Qed.

Lemma slug_lower s : all_chars is_slug_char s = true → Text.lower s = s.
Proof.
  induction s as [|c s IH]; simpl; [done|].
  intros [Hc Hs]%andb_true_iff.
  destruct (slug_char_cases c Hc) as (_ & _ & ->). by rewrite IH.
Qed.

Lemma slug_lstrip_space s :
  all_chars is_slug_char s = true → lstrip is_space s = s.
Proof.
  destruct s as [|c s]; simpl; [done|].
  intros [Hc Hs]%andb_true_iff.
  by destruct (slug_char_cases c Hc) as (-> & _ & _).
Qed.

Lemma slug_rstrip_space s :
  all_chars is_slug_char s = true → rstrip is_space s = s.
Proof.
  induction s as [|c s IH]; simpl; [done|].
  intros [Hc Hs]%andb_true_iff. rewrite IH by done.
  destruct (slug_char_cases c Hc) as (-> & _ & _). by destruct s.
Qed.

Lemma slug_sub_non_word b s :
  all_chars is_slug_char s = true →
  sub_runs_from (λ c, negb (is_word c)) b s = s.
Proof.
  revert b. induction s as [|c s IH]; intros b; simpl; [done|].
  intros [Hc Hs]%andb_true_iff.
  destruct (slug_char_cases c Hc) as (_ & -> & _). simpl. by rewrite IH.
Qed.

Lemma closed_sub_underscores b s :
  closed b s = true → sub_runs_from is_underscore b s = s.
Proof.
  revert b. induction s as [|c s IH]; intros b; simpl; [done|].
  destruct (is_underscore c) eqn:E.
  - intros [Hb Hs]%andb_true_iff. apply negb_true_iff in Hb as ->.
    rewrite (is_underscore_eq _ E). by rewrite IH.
  - intros [_ Hs]%andb_true_iff. by rewrite IH.
Qed.

Lemma closed_rstrip_underscore b s :
  closed b s = true → rstrip is_underscore s = s.
Proof.
  revert b. induction s as [|c s IH]; intros b; simpl; [done|].
  destruct (is_underscore c) eqn:E; intros [_ Hs]%andb_true_iff;
    rewrite (IH _ Hs); destruct s; simpl in *; done.
Qed.

Lemma closed_lstrip_underscore s :
  closed true s = true → lstrip is_underscore s = s.
Proof. destruct s as [|c s]; simpl; [done|]. by destruct (is_underscore c). Qed.

Lemma is_slug_closed s : is_slug s = true → s = EmptyString ∨ closed true s = true.
Proof. destruct s; simpl; eauto. Qed.

(** A slug is a fixed point of slugification. *)
Lemma slugify_slug s : is_slug s = true → slugify s = s.
Proof.
  intros [->|Hc]%is_slug_closed; [done|].
  pose proof (closed_all_slug _ _ Hc) as Hall.
  unfold slugify, replace_non_word, collapse_underscores, strip, sub_runs.
  rewrite slug_lstrip_space, slug_rstrip_space, slug_lower by done.
  rewrite slug_sub_non_word by done.
  rewrite closed_sub_underscores by by apply closed_weaken.
  rewrite closed_lstrip_underscore by done.
  by rewrite (closed_rstrip_underscore true).
Qed.

(** *** Slugification produces slugs *)

Lemma sub_non_word_slug_chars b s :
  all_chars is_slug_char
    (sub_runs_from (λ c, negb (is_word c)) b (Text.lower s)) = true.
Proof.
  revert b. induction s as [|c s IH]; intros b; simpl; [done|].
  destruct (is_word (Text.lower_char c)) eqn:E; simpl.
  - by rewrite lowered_word_is_slug_char, IH.
  - destruct b; simpl; by rewrite IH.
Qed.

Lemma sub_underscores_tidy b s :
  all_chars is_slug_char s = true →
  tidy b (sub_runs_from is_underscore b s) = true.
Proof.
  revert b. induction s as [|c s IH]; intros b; simpl; [done|].
  intros [Hc Hs]%andb_true_iff.
  destruct (is_underscore c) eqn:E.
  - destruct b; simpl; by rewrite IH.
  - simpl. rewrite E, Hc. simpl. by apply IH.
Qed.

Lemma tidy_lstrip b s :
  tidy b s = true → tidy true (lstrip is_underscore s) = true.
Proof.
  revert b. induction s as [|c s IH]; intros b; simpl; [done|].
  destruct (is_underscore c) eqn:E.
  - intros [_ Hs]%andb_true_iff. eauto.
  - intros H. simpl. by rewrite E.
Qed.

Lemma tidy_rstrip_closed b s :
  tidy b s = true →
  rstrip is_underscore s = EmptyString
  ∨ closed b (rstrip is_underscore s) = true.
Proof.
  revert b. induction s as [|c s IH]; intros b; simpl; [eauto|].
  destruct (is_underscore c) eqn:E.
  - intros [Hb Hs]%andb_true_iff.
    destruct (IH _ Hs) as [->|Hc]; [eauto|].
    destruct (rstrip is_underscore s) as [|a r] eqn:Er; [eauto|].
    right. cbn [closed]. by rewrite E, Hb.
  - intros [Hc Hs]%andb_true_iff. right.
    destruct (IH _ Hs) as [Hr|Hr].
    + rewrite Hr. simpl. by rewrite E, Hc.
    + destruct (rstrip is_underscore s) as [|a r] eqn:Er.
      * simpl. by rewrite E, Hc.
      * cbn [closed]. by rewrite E, Hc.
Qed.

Lemma slugify_is_slug s : is_slug (slugify s) = true.
Proof.
  unfold slugify, replace_non_word, collapse_underscores, strip, sub_runs.
  set (t := sub_runs_from (λ c, negb (is_word c)) false _).
  assert (all_chars is_slug_char t = true) as Ht
    by apply sub_non_word_slug_chars.
  pose proof (tidy_lstrip _ _ (sub_underscores_tidy false t Ht)) as Hl.
  destruct (tidy_rstrip_closed _ _ Hl) as [->|Hc]; [done|].
  revert Hc. generalize (rstrip is_underscore
    (lstrip is_underscore (sub_runs_from is_underscore false t))).
  by intros [].
Qed.

(** Slugification is idempotent: the first of the three steps, taken
    alone, does satisfy the property. *)
Lemma slugify_idempotent s : slugify (slugify s) = slugify s.
Proof. apply slugify_slug, slugify_is_slug. Qed.

(** *** Suffixed names *)

Lemma pretty_N_char_slug x :
  is_underscore (pretty_N_char x) = false
  ∧ is_slug_char (pretty_N_char x) = true.
Proof. unfold pretty_N_char. by repeat case_match. Qed.

Lemma closed_digit x s :
  closed false s = true → closed true (String (pretty_N_char x) s) = true.
Proof.
  intros Hs. simpl. destruct (pretty_N_char_slug x) as [-> ->]. done.
Qed.

Lemma pretty_N_go_closed x s :
  closed true s = true → closed true (pretty_N_go x s) = true.
Proof.
  revert s. induction (N.lt_wf_0 x) as [x _ IH]; intros s Hs.
  assert (x = 0 ∨ 0 < x)%N as [->|Hx] by lia.
  - by rewrite pretty_N_go_0.
  - rewrite pretty_N_go_step by done. apply IH.
    + by apply N.div_lt.
    + by apply closed_digit, closed_weaken.
Qed.

Lemma pretty_nat_closed (n : nat) : closed true (pretty n) = true.
Proof.
  unfold pretty, pretty_nat, pretty, pretty_N. case_decide; [done|].
  rewrite pretty_N_go_step by lia.
  by apply pretty_N_go_closed, closed_digit.
Qed.

Lemma closed_append_suffix b s t :
  closed b s = true → closed true t = true →
  closed b (s +:+ String "_" t) = true.
Proof.
  intros Hs Ht. revert b Hs. induction s as [|c s IH]; intros b; simpl.
  - intros ->%negb_true_iff. done.
  - destruct (is_underscore c); intros [-> Hs]%andb_true_iff; simpl; eauto.
Qed.

Lemma suffixed_slug s (n : nat) :
  is_slug s = true → s ≠ EmptyString →
  is_slug (s +:+ "_" +:+ pretty n) = true.
Proof.
  intros [->|Hs]%is_slug_closed Hne; [done|].
  pose proof (closed_append_suffix _ _ _ Hs (pretty_nat_closed n)) as Hc.
  revert Hc. change ("_" +:+ pretty n) with (String "_" (pretty n)).
  generalize (s +:+ String "_" (pretty n)). by intros [].
Qed.

(** *** Deduplication *)

Lemma foldl_dedup_step counts acc cols :
  foldl dedup_step (counts, acc) cols
  = ((foldl dedup_step (counts, []) cols).1,
     acc ++ (foldl dedup_step (counts, []) cols).2).
Proof.
  revert counts acc. induction cols as [|c cols IH]; intros counts acc.
  - simpl. by rewrite app_nil_r.
  - cbn [foldl]. unfold dedup_step at 2 4 6. cbn [fst snd].
    rewrite IH. rewrite (IH _ ([] ++ _)). cbn [fst snd].
    by rewrite app_nil_l, <-app_assoc.
Qed.

Lemma dedup_from_cons counts c cols :
  dedup_from counts (c :: cols)
  = (let n := S (default 0%nat (counts !! c)) in
     (if decide (1 < n)%nat then c +:+ "_" +:+ pretty n else c)
     :: dedup_from (<[c := n]> counts) cols).
Proof.
  unfold dedup_from. cbn [foldl]. unfold dedup_step at 2. cbn [fst snd].
  by rewrite foldl_dedup_step.
Qed.

(** Names that are pairwise distinct and not yet counted pass unchanged. *)
Lemma dedup_from_distinct counts cols :
  NoDup cols → (∀ c, c ∈ cols → counts !! c = None) →
  dedup_from counts cols = cols.
Proof.
  intros Hnd. revert counts.
  induction Hnd as [|c cols Hc Hnd IH]; intros counts Hfresh; [done|].
  rewrite dedup_from_cons. cbn zeta.
  rewrite (Hfresh c) by apply list_elem_of_here. simpl.
  f_equal. apply IH.
  intros c' Hc'. rewrite lookup_insert_ne by (intros ->; done).
  apply Hfresh. by apply list_elem_of_further.
Qed.

Lemma dedup_from_slugs counts cols :
  Forall (λ c, is_slug c = true ∧ c ≠ EmptyString) cols →
  Forall (λ c, is_slug c = true) (dedup_from counts cols).
Proof.
  intros Hall. revert counts.
  induction Hall as [|c cols [Hc Hne] Hall IH]; intros counts; [done|].
  rewrite dedup_from_cons. cbn zeta. constructor; [|apply IH].
  case_decide; [|done]. by apply suffixed_slug.
Qed.

(** *** Aliases *)

Lemma apply_alias_slug sm c :
  canonical_targets sm → is_slug c = true →
  is_slug (apply_alias (reverse_map sm) c) = true.
Proof.
  intros Hcanon Hc. unfold apply_alias.
  destruct (reverse_map sm !! c) as [std|] eqn:E; [|done].
  by destruct (Hcanon _ _ E).
Qed.

Lemma apply_alias_idempotent sm c :
  canonical_targets sm →
  apply_alias (reverse_map sm) (apply_alias (reverse_map sm) c)
  = apply_alias (reverse_map sm) c.
Proof.
  intros Hcanon. unfold apply_alias.
  destruct (reverse_map sm !! c) as [std|] eqn:E; simpl.
  - destruct (Hcanon _ _ E) as [_ Hnone]. by rewrite Hnone.
  - by rewrite E.
Qed.

Lemma normalize_column_names_unfold sm headers :
  normalize_column_names sm headers
  = apply_alias (reverse_map sm) <$> dedup_from ∅ (slugify <$> headers).
Proof.
  unfold normalize_column_names, _deduplicate_columns, dedup_from.
  by rewrite <-list_fmap_compose.
Qed.

Lemma default_semantic_map_canonical : canonical_targets default_semantic_map.
Proof.
  apply (bool_decide_unpack _). vm_compute. exact I.
Qed.

(** With at most one empty name among slugs, deduplication yields slugs:
    the first empty name is kept, and only a second one would become
    ["_2"]. *)
Lemma dedup_from_slugs_one_blank counts cols :
  Forall (λ c, is_slug c = true) cols →
  counts !! EmptyString = None →
  (length (filter (λ c, c = EmptyString) cols) ≤ 1)%nat →
  Forall (λ c, is_slug c = true) (dedup_from counts cols).
Proof.
  intros Hall. revert counts.
  induction Hall as [|c cols Hc Hall IH]; intros counts Hfresh Hocc; [done|].
  rewrite dedup_from_cons. cbn zeta.
  destruct (decide (c = EmptyString)) as [->|Hne].
  - rewrite Hfresh. simpl. constructor; [done|].
    rewrite filter_cons_True in Hocc by done. simpl in Hocc.
    assert (filter (λ c, c = EmptyString) cols = []) as Hnone
      by (apply length_zero_iff_nil; lia).
    apply dedup_from_slugs, Forall_forall. intros c Hin. split.
    + by eapply Forall_forall in Hall.
    + intros ->.
      assert (EmptyString ∈ filter (λ c, c = EmptyString) cols) as Hc'
        by by apply list_elem_of_filter.
      rewrite Hnone in Hc'. by apply elem_of_nil in Hc'.
  - rewrite filter_cons_False in Hocc by done.
    constructor; [|apply IH; [by rewrite lookup_insert_ne|done]].
    case_decide; [|done]. by apply suffixed_slug.
Qed.

(** C6, as stated, fails with the default alias table: aliases are
    mapped after the deduplication, so two headers that are aliases of
    one canonical name come out equal, and only a second pass suffixes
    them.  ["total_sales"; "sales_usd"] normalizes to
    ["revenue_usd"; "revenue_usd"], which normalizes to
    ["revenue_usd"; "revenue_usd_2"].  (A suffix can also collide with a
    header: ["a"; "a"; "a_2"] gives ["a"; "a_2"; "a_2"], then
    ["a"; "a_2"; "a_2_2"].) *)
Lemma normalize_column_names_not_idempotent :
  ¬ (∀ headers : list string,
       normalize_column_names default_semantic_map
         (normalize_column_names default_semantic_map headers)
       = normalize_column_names default_semantic_map headers).
Proof.
  intros Hclaim. specialize (Hclaim ["total_sales"; "sales_usd"]).
  vm_compute in Hclaim. discriminate Hclaim.
Qed.

(** C6, amended.  Slugification alone is idempotent.  Normalization
    (slugification, then suffix-based deduplication, then alias mapping)
    applied twice yields the same sequence as applied once whenever the
    names of the first pass are pairwise distinct and are slugs, for
    every alias table whose canonical names are slugs and not themselves
    aliases.  The names of the first pass are slugs whenever at most one
    header slugifies to the empty name, and the default alias table is
    such a table. *)
Theorem normalize_column_names_idempotent_on_distinct
    (semantic_map : list (string * list string)) (headers : list string) :
  (∀ name, slugify (slugify name) = slugify name)
  ∧ (canonical_targets semantic_map →
     NoDup (normalize_column_names semantic_map headers) →
     Forall (λ c, is_slug c = true)
            (normalize_column_names semantic_map headers) →
     normalize_column_names semantic_map
       (normalize_column_names semantic_map headers)
     = normalize_column_names semantic_map headers)
  ∧ (canonical_targets semantic_map →
     (occurrences EmptyString (slugify <$> headers) ≤ 1)%nat →
     Forall (λ c, is_slug c = true)
            (normalize_column_names semantic_map headers))
  ∧ canonical_targets default_semantic_map.
Proof.
  split; [|split; [|split]].
  - apply slugify_idempotent.
  - intros Hcanon Hnd Hslugs.
    rewrite (normalize_column_names_unfold _ (normalize_column_names _ _)).
    set (out := normalize_column_names semantic_map headers) in *.
    assert (slugify <$> out = out) as ->.
    { rewrite <-(list_fmap_id out) at 2. apply Forall_fmap_ext.
      eapply Forall_impl; [exact Hslugs|]. intros c Hc. by apply slugify_slug. }
    rewrite dedup_from_distinct by done.
    subst out. rewrite normalize_column_names_unfold.
    rewrite <-list_fmap_compose. apply list_fmap_ext.
    intros i c _. by apply apply_alias_idempotent.
  - intros Hcanon Hocc. rewrite normalize_column_names_unfold.
    apply Forall_fmap.
    eapply Forall_impl; [apply dedup_from_slugs_one_blank|].
    + apply Forall_fmap, Forall_forall. intros h _. apply slugify_is_slug.
    + done.
    + exact Hocc.
    + intros c Hc. by apply apply_alias_slug.
  - apply default_semantic_map_canonical.
Qed.

Lemma normalize_column_names_idempotent_on_distinct_witness :
  normalize_column_names default_semantic_map
    [" "; "Sales"; "Sales"; "Total Sales"]
  = [EmptyString; "sales"; "sales_2"; "revenue_usd"]
  ∧ normalize_column_names default_semantic_map
      (normalize_column_names default_semantic_map
         [" "; "Sales"; "Sales"; "Total Sales"])
    = normalize_column_names default_semantic_map
        [" "; "Sales"; "Sales"; "Total Sales"].
Proof.
  split; [reflexivity|].
  destruct (normalize_column_names_idempotent_on_distinct
              default_semantic_map [" "; "Sales"; "Sales"; "Total Sales"])
    as (_ & Hsame & Hslugs & Hcanon).
  apply Hsame.
  - exact Hcanon.
  - apply (bool_decide_unpack _). vm_compute. exact I.
  - apply Hslugs; [exact Hcanon|]. vm_compute. lia.
Defined.

(** * Further properties of the code *)

(** ** The unified connector *)

Lemma normalize_result_shape r source auth_type v :
  _normalize_result r source auth_type = Ok v →
  ∃ (status : string) client metadata connection_info error,
    v = VDict [("status", VStr status); ("source", VStr source);
               ("auth_type", VStr auth_type); ("client", client);
               ("metadata", VDict metadata);
               ("connection_info", VDict connection_info);
               ("error", error)]
    ∧ ((status = "failed" ∧ client = VNone ∧ metadata = []
        ∧ connection_info = [])
       ∨ (status = "success" ∧ error = VNone)).
Proof.
  unfold _normalize_result. destruct r; try discriminate. simpl.
  destruct (negb _); simpl.
  - intros [= <-]. eexists _, _, _, _, _. split; [done|]. by left.
  - destruct (String.eqb source "powerbi"); simpl;
      [|destruct (String.eqb source "tableau"); simpl];
      intros [= <-]; eexists _, _, _, _, _; (split; [done|]); by right.
Qed.

Lemma connect_dispatch_shape c source auth_type kwargs v :
  connect_dispatch c source auth_type kwargs = Ok v →
  ∃ r, _normalize_result r source auth_type = Ok v.
Proof.
  unfold connect_dispatch.
  repeat match goal with
         | |- context [if ?b then _ else _] => destruct b
         end; try discriminate;
    match goal with
    | |- context [mbind _ ?m] => destruct m as [r|]; simpl; [|discriminate]
    end; eauto.
Qed.

Lemma connect_bi_dashboard_shape c source auth_type kwargs :
  ∃ (status src : string) client metadata connection_info error,
    connect_bi_dashboard c source auth_type kwargs
    = VDict [("status", VStr status); ("source", VStr src);
             ("auth_type", VStr auth_type); ("client", client);
             ("metadata", VDict metadata);
             ("connection_info", VDict connection_info);
             ("error", error)]
    ∧ ((status = "failed" ∧ client = VNone ∧ metadata = []
        ∧ connection_info = [])
       ∨ (status = "success" ∧ error = VNone)).
Proof.
  unfold connect_bi_dashboard.
  destruct (if String.eqb source "" then _ else _) as [src|e].
  - destruct (connect_dispatch c src auth_type _) as [v|e] eqn:E.
    + apply connect_dispatch_shape in E as [r Hr].
      apply normalize_result_shape in Hr
        as (status & client & metadata & info & error & -> & Hcases).
      by eexists _, _, _, _, _, _.
    + eexists _, _, _, _, _, _. split; [done|]. by left.
  - eexists _, _, _, _, _, _. split; [done|]. by left.
Qed.

(** X1.  [connect_bi_dashboard] keeps its documented schema on every
    path: a dict with exactly the entries status, source, auth_type,
    client, metadata, connection_info and error, in that order, the
    auth_type being the caller's; the status is "failed" or "success"; a
    failed connection has no client and empty metadata and
    connection_info, and a successful one has no error. *)
Theorem connect_bi_dashboard_schema (c : collaborators)
    (source auth_type : string) (kwargs : pydict) :
  ∃ (status src : string) client metadata connection_info error,
    connect_bi_dashboard c source auth_type kwargs
    = VDict [("status", VStr status); ("source", VStr src);
             ("auth_type", VStr auth_type); ("client", client);
             ("metadata", VDict metadata);
             ("connection_info", VDict connection_info);
             ("error", error)]
    ∧ ((status = "failed" ∧ client = VNone ∧ metadata = []
        ∧ connection_info = [])
       ∨ (status = "success" ∧ error = VNone)).
Proof. apply connect_bi_dashboard_shape. Qed.

Lemma connect_dispatch_unsupported c source auth_type kwargs :
  supported source auth_type = false →
  connect_dispatch c source auth_type kwargs
  = Raise (Exn "ValueError"
             (if String.eqb source "powerbi" then
                "Unsupported auth_type '" +:+ auth_type +:+ "' for Power BI"
              else if String.eqb source "tableau" then
                "Unsupported auth_type '" +:+ auth_type +:+ "' for Tableau"
              else "Unsupported source '" +:+ source +:+ "'")).
Proof.
  unfold supported, connect_dispatch.
  destruct (String.eqb source "powerbi"), (String.eqb source "tableau"),
    (String.eqb auth_type "private"), (String.eqb auth_type "public");
    simpl; done.
Qed.

(** X2.  A source that is given but is neither "powerbi" nor "tableau",
    or an auth_type that is neither "private" nor "public", is answered
    without calling any vendor connector: the connection is failed and
    its error message names the unsupported source, or the unsupported
    auth_type and the product. *)
Theorem connect_bi_dashboard_rejects_unsupported (c : collaborators)
    (source auth_type : string) (kwargs : pydict) :
  source ≠ EmptyString →
  supported source auth_type = false →
  connect_bi_dashboard c source auth_type kwargs
  = VDict [("status", VStr "failed"); ("source", VStr source);
           ("auth_type", VStr auth_type); ("client", VNone);
           ("metadata", VDict []); ("connection_info", VDict []);
           ("error",
            VDict [("type", VStr "exception");
                   ("message",
                    VStr (if String.eqb source "powerbi" then
                            "Unsupported auth_type '" +:+ auth_type
                            +:+ "' for Power BI"
                          else if String.eqb source "tableau" then
                            "Unsupported auth_type '" +:+ auth_type
                            +:+ "' for Tableau"
                          else "Unsupported source '" +:+ source +:+ "'"))])].
Proof.
  intros Hsource Hunsupported. unfold connect_bi_dashboard.
  destruct (String.eqb_spec source "") as [->|_]; [done|].
  by rewrite connect_dispatch_unsupported.
Qed.

Lemma connect_bi_dashboard_rejects_unsupported_witness :
  connect_bi_dashboard echo "qlik" "public" [("url", VStr "https://x")]
  = VDict [("status", VStr "failed"); ("source", VStr "qlik");
           ("auth_type", VStr "public"); ("client", VNone);
           ("metadata", VDict []); ("connection_info", VDict []);
           ("error", VDict [("type", VStr "exception");
                            ("message", VStr "Unsupported source 'qlik'")])]
  ∧ field (connect_bi_dashboard echo "tableau" "sso" []) "error"
    = Some (VDict [("type", VStr "exception");
                   ("message",
                    VStr "Unsupported auth_type 'sso' for Tableau")]).
Proof.
  split.
  - apply (connect_bi_dashboard_rejects_unsupported
             echo "qlik" "public" [("url", VStr "https://x")]);
      [discriminate | reflexivity].
  - rewrite (connect_bi_dashboard_rejects_unsupported echo "tableau" "sso" []);
      [reflexivity | discriminate | reflexivity].
Defined.

(** ** Source detection *)

Lemma lower_char_idempotent c :
  Text.lower_char (Text.lower_char c) = Text.lower_char c.
Proof. destruct c as [[] [] [] [] [] [] [] []]; reflexivity. Qed.

Lemma lower_idempotent s : Text.lower (Text.lower s) = Text.lower s.
Proof.
  induction s as [|c s IH]; simpl; [done|].
  by rewrite lower_char_idempotent, IH.
Qed.

Lemma lower_empty s : String.eqb (Text.lower s) "" = String.eqb s "".
Proof. by destruct s. Qed.

(** X3.  Source detection ignores letter case: a URL and its lower-case
    form are detected alike, error message included.  When it answers it
    answers "powerbi" or "tableau", and every refusal of a string is a
    [ValueError]. *)
Theorem detect_bi_source_from_url_ignores_case (url : string) :
  detect_bi_source_from_url (VStr (Text.lower url))
  = detect_bi_source_from_url (VStr url)
  ∧ match detect_bi_source_from_url (VStr url) with
    | Ok source => source = "powerbi" ∨ source = "tableau"
    | Raise e => exn_class e = "ValueError"
    end.
Proof.
  unfold detect_bi_source_from_url. simpl.
  rewrite lower_empty, lower_idempotent. split; [done|].
  destruct (negb _); [done|].
  repeat match goal with
         | |- context [if ?b then _ else _] => destruct b
         end; auto.
Qed.

(** ** An empty source *)

(** X4.  With an empty source the connector detects the source from the
    URL, but [extract_dashboard] selects the adapter by its own [source]
    argument, which stays empty: the dashboard is failed in every case,
    and when the connection succeeded its error is "Unsupported
    source/auth_type combination.", no adapter being called. *)
Theorem extract_dashboard_empty_source_never_extracts (c : collaborators)
    (auth_type : string) (drill_state : pyval) (kwargs : pydict) :
  field (extract_dashboard c "" auth_type drill_state kwargs) "status"
  = Some (VStr "failed")
  ∧ (field (connect_bi_dashboard c "" auth_type kwargs) "status"
     = Some (VStr "success") →
     extract_dashboard c "" auth_type drill_state kwargs
     = _fail_result "" auth_type
         (VStr "Unsupported source/auth_type combination.")).
Proof.
  split.
  - by apply extract_dashboard_unsupported.
  - unfold extract_dashboard, extract_dashboard_with, extract_dashboard_try.
    simpl.
    destruct (connect_bi_dashboard_shape c "" auth_type kwargs)
      as (status & src & cl & md & ci & err & -> & _).
    simpl. by intros [= ->].
Qed.

Lemma extract_dashboard_empty_source_never_extracts_witness :
  extract_dashboard echo "" "public" VNone
    [("url", VStr "https://public.Tableau.com/views/sales")]
  = _fail_result "" "public"
      (VStr "Unsupported source/auth_type combination.").
Proof.
  apply (extract_dashboard_empty_source_never_extracts echo "public" VNone
           [("url", VStr "https://public.Tableau.com/views/sales")]).
  reflexivity.
Defined.

(** ** The repository's signatures *)

Lemma first_unexpected_found params (kwargs : pydict) k :
  dict_mem kwargs k = true → is_param params k = false →
  ∃ k', first_unexpected params kwargs = Some k'.
Proof.
  unfold dict_mem. intros Hmem Hparam.
  induction kwargs as [|[k0 v0] kwargs IH]; simpl in *; [done|].
  destruct (is_param params k0) eqn:E0; [|eauto].
  destruct (String.eqb_spec k0 k) as [->|_]; [congruence|]. by apply IH.
Qed.

Lemma via_signature_unexpected sg body (kwargs : pydict) k :
  dict_mem kwargs k = true → is_param (sig_params sg) k = false →
  ∃ k', via_signature sg body kwargs
        = Raise (Exn "TypeError"
                   (sig_name sg +:+ "() got an unexpected keyword argument '"
                    +:+ k' +:+ "'")).
Proof.
  intros Hmem Hparam.
  destruct (first_unexpected_found _ _ _ Hmem Hparam) as [k' Hk'].
  exists k'. unfold via_signature, bind_keywords. by rewrite Hk'.
Qed.

Lemma dict_mem_set (d : pydict) k v : dict_mem (dict_set d k v) k = true.
Proof. unfold dict_mem. by rewrite dict_get_set_eq. Qed.

(** No vendor connector has a parameter [url], and [connect_bi_dashboard]
    always passes one. *)
Lemma connect_dispatch_with_signatures bodies source auth_type kwargs url :
  ∃ e, connect_dispatch (with_signatures bodies) source auth_type
         (dict_set kwargs "url" url) = Raise e
       ∧ (supported source auth_type = true → exn_class e = "TypeError").
Proof.
  destruct (supported source auth_type) eqn:Hs.
  - unfold supported in Hs. unfold connect_dispatch.
    destruct (String.eqb source "powerbi"), (String.eqb source "tableau"),
      (String.eqb auth_type "private"), (String.eqb auth_type "public");
      try discriminate; simpl;
      match goal with
      | |- context [via_signature ?sg ?body ?kw] =>
          destruct (via_signature_unexpected sg body kw "url"
                      (dict_mem_set _ _ _) eq_refl) as [k' ->]
      end; eexists; split; done.
  - rewrite connect_dispatch_unsupported by done. eexists. split; done.
Qed.

Lemma connect_bi_dashboard_with_signatures bodies source auth_type kwargs :
  ∃ src e,
    connect_bi_dashboard (with_signatures bodies) source auth_type kwargs
    = connect_failed src auth_type e
    ∧ (source ≠ EmptyString → supported source auth_type = true →
       src = source ∧ exn_class e = "TypeError").
Proof.
  unfold connect_bi_dashboard.
  destruct (String.eqb_spec source "") as [->|Hne].
  - destruct (detect_bi_source_from_url _) as [src|e].
    + destruct (connect_dispatch_with_signatures bodies src auth_type
                  (dict_remove kwargs "url")
                  (dict_get_default kwargs "url" VNone)) as (e & -> & _).
      exists src, e. split; done.
    + exists "", e. split; done.
  - destruct (connect_dispatch_with_signatures bodies source auth_type
                (dict_remove kwargs "url")
                (dict_get_default kwargs "url" VNone)) as (e & -> & He).
    exists source, e. split; [done|]. auto.
Qed.

(** X5.  With the signatures the repository's vendor connectors have,
    [connect_bi_dashboard] never reports success: it adds a [url] keyword
    to every call, no vendor connector accepts one, and the [TypeError]
    of the call is caught and turned into a failed connection.  This
    holds for every source, auth_type and set of connection parameters,
    whatever the connectors' bodies would do. *)
Theorem connect_bi_dashboard_never_connects (bodies : collaborators)
    (source auth_type : string) (kwargs : pydict) :
  ∃ src e,
    connect_bi_dashboard (with_signatures bodies) source auth_type kwargs
    = VDict [("status", VStr "failed"); ("source", VStr src);
             ("auth_type", VStr auth_type); ("client", VNone);
             ("metadata", VDict []); ("connection_info", VDict []);
             ("error", VDict [("type", VStr "exception");
                              ("message", VStr (exn_str e))])]
    ∧ (source ≠ EmptyString → supported source auth_type = true →
       src = source ∧ exn_class e = "TypeError").
Proof. apply connect_bi_dashboard_with_signatures. Qed.

Lemma connect_bi_dashboard_never_connects_witness :
  connect_bi_dashboard (with_signatures echo) "tableau" "public"
    [("public_url", VStr "https://public.tableau.com/views/sales")]
  = VDict [("status", VStr "failed"); ("source", VStr "tableau");
           ("auth_type", VStr "public"); ("client", VNone);
           ("metadata", VDict []); ("connection_info", VDict []);
           ("error",
            VDict [("type", VStr "exception");
                   ("message",
                    VStr ("connect_public_tableau() got an unexpected "
                          +:+ "keyword argument 'url'"))])].
Proof.
  destruct (connect_bi_dashboard_never_connects echo "tableau" "public"
              [("public_url", VStr "https://public.tableau.com/views/sales")])
    as (src & e & Hrun & Hclass).
  destruct Hclass as [-> _]; [discriminate | reflexivity |].
  reflexivity.
Defined.

Lemma extract_dashboard_with_signatures bodies source auth_type ds kwargs :
  ∃ message,
    extract_dashboard (with_signatures bodies) source auth_type ds kwargs
    = _fail_result source auth_type
        (VDict [("type", VStr "exception"); ("message", VStr message)]).
Proof.
  destruct (connect_bi_dashboard_with_signatures bodies source auth_type
              kwargs) as (src & e & Hconn & _).
  exists (exn_str e).
  unfold extract_dashboard, extract_dashboard_with, extract_dashboard_try.
  simpl. by rewrite Hconn.
Qed.

(** X6.  Hence [extract_dashboard], run with the repository's own
    connectors, returns the failure payload on every input: no dashboard
    is ever extracted, and the error is the connector's exception
    record. *)
Theorem extract_dashboard_never_extracts (bodies : collaborators)
    (source auth_type : string) (drill_state : pyval) (kwargs : pydict) :
  ∃ message,
    extract_dashboard (with_signatures bodies) source auth_type
      drill_state kwargs
    = _fail_result source auth_type
        (VDict [("type", VStr "exception"); ("message", VStr message)]).
Proof. apply extract_dashboard_with_signatures. Qed.

Lemma call_adapter_powerbi_with_signatures bodies auth_type conn ds kwargs :
  ∃ r, call_adapter (with_signatures bodies) "powerbi" auth_type conn ds kwargs
       = r ∧ (r = Ok VNone ∨ ∃ e, r = Raise e).
Proof.
  eexists. split; [done|]. unfold call_adapter. simpl.
  destruct (String.eqb auth_type "private");
    [|destruct (String.eqb auth_type "public")]; [| |by left]; right.
  - destruct (getitem conn "client"); simpl; [|eauto].
    destruct (getitem conn "metadata") as [md|]; simpl; [|eauto].
    destruct (get md "workspace_id" VNone); simpl; eauto.
  - simpl. eauto.
Qed.

(** X7.  Even behind a connection that succeeds, the Power BI adapter is
    never entered: [extract_dashboard] passes [session=] and
    [public_url=] where the adapter's parameters are [client] and
    [embed_url], so for source "powerbi" the dashboard is failed whatever
    the connector answers; the two Tableau calls do bind, and reach the
    adapter with the arguments shown. *)
Theorem powerbi_adapter_is_never_entered
    (connect : string → string → pydict → result pyval)
    (bodies : collaborators) (auth_type : string) (drill_state : pyval)
    (kwargs : pydict) (conn : pydict) (client : pyval) :
  field (extract_dashboard_with connect (with_signatures bodies)
           "powerbi" auth_type drill_state kwargs) "status"
  = Some (VStr "failed")
  ∧ call_adapter (with_signatures bodies) "tableau" "public" (VDict conn)
      drill_state kwargs
    = tableau_extract_public_dashboard bodies
        [("public_url", dict_get_default kwargs "public_url" VNone);
         ("use_ocr", dict_get_default kwargs "use_ocr" (VBool true));
         ("drill_state", drill_state)]
  ∧ call_adapter (with_signatures bodies) "tableau" "private"
      (VDict (("client", client) :: conn)) drill_state kwargs
    = tableau_extract_private_dashboard bodies
        [("server", client);
         ("view_id", dict_get_default kwargs "view_id" VNone);
         ("drill_state", drill_state)].
Proof.
  split; [|split; reflexivity].
  unfold extract_dashboard_with, extract_dashboard_try.
  destruct (connect _ _ _) as [c|]; simpl; [|done].
  destruct (getitem c "status") as [status|]; simpl; [|done].
  destruct (negb _).
  - destruct (get c "error" VNone); simpl; done.
  - destruct (call_adapter_powerbi_with_signatures bodies auth_type c
                drill_state kwargs) as (r & -> & [->|[e ->]]); done.
Qed.

(** ** The dashboard extractor *)

Lemma ensure_unified_schema_echo result source auth_type ds r :
  _ensure_unified_schema result source auth_type ds = Ok r →
  field r "source" = Some (VStr source)
  ∧ field r "auth_type" = Some (VStr auth_type).
Proof.
  unfold _ensure_unified_schema.
  destruct result; simpl; try discriminate.
  destruct (iter _); simpl; [|discriminate].
  by intros [= <-].
Qed.

(** X8.  The [source] and [auth_type] of every dashboard returned by
    [extract_dashboard] are the arguments of the call, failed or not:
    what the adapter or the connector reports for them is not used. *)
Theorem extract_dashboard_echoes_source
    (connect : string → string → pydict → result pyval) (c : collaborators)
    (source auth_type : string) (drill_state : pyval) (kwargs : pydict) :
  field (extract_dashboard_with connect c source auth_type drill_state kwargs)
        "source" = Some (VStr source)
  ∧ field (extract_dashboard_with connect c source auth_type drill_state
             kwargs) "auth_type" = Some (VStr auth_type).
Proof.
  unfold extract_dashboard_with, extract_dashboard_try.
  destruct (connect _ _ _) as [conn|]; simpl; [|done].
  destruct (getitem conn "status") as [status|]; simpl; [|done].
  destruct (negb _).
  - destruct (get conn "error" VNone); simpl; done.
  - destruct (call_adapter _ _ _ _ _ _) as [result|]; simpl; [|done].
    destruct (_ensure_unified_schema result source auth_type drill_state)
      as [r|] eqn:E.
    + apply ensure_unified_schema_echo in E.
      destruct result; simpl; try exact E; done.
    + destruct result; simpl; done.
Qed.

Lemma ensure_highlights_idempotent v :
  ensure_highlights (ensure_highlights v) = ensure_highlights v.
Proof.
  destruct v as [| | | | |d|]; try done.
  unfold ensure_highlights.
  destruct (dict_mem d "highlights") eqn:E.
  - by rewrite E.
  - by rewrite dict_mem_set.
Qed.

(** X9.  The schema pass is idempotent: run again on its own result, with
    the same source and auth_type and with any [drill_state], it returns
    that result unchanged. *)
Theorem ensure_unified_schema_idempotent (result : pyval)
    (source auth_type : string) (drill_state again : pyval)
    (unified : pyval) :
  _ensure_unified_schema result source auth_type drill_state = Ok unified →
  _ensure_unified_schema unified source auth_type again = Ok unified.
Proof.
  unfold _ensure_unified_schema at 1.
  destruct result; simpl; try discriminate.
  destruct (iter _) as [comps|]; simpl; [|discriminate].
  intros [= <-]. unfold _ensure_unified_schema. simpl.
  rewrite <-list_fmap_compose.
  rewrite (list_fmap_ext (ensure_highlights ∘ ensure_highlights)
             ensure_highlights comps); [done|].
  intros i v _. apply ensure_highlights_idempotent.
Qed.

Lemma ensure_unified_schema_idempotent_witness :
  ∃ unified,
    _ensure_unified_schema
      (VDict [("components", VList [VDict [("type", VStr "kpi")]])])
      "tableau" "public" (VDict [("Sales", VList [VStr "Year"])])
    = Ok unified
    ∧ _ensure_unified_schema unified "tableau" "public" VNone = Ok unified.
Proof.
  eexists. split; [reflexivity|].
  apply (ensure_unified_schema_idempotent
           (VDict [("components", VList [VDict [("type", VStr "kpi")]])])
           "tableau" "public" (VDict [("Sales", VList [VStr "Year"])]) VNone).
  reflexivity.
Defined.

(** X10.  What an adapter returns decides the outcome after a
    successful connection: [None] is reported as "Unsupported
    source/auth_type combination." even for a supported combination, and
    any other value that is not a dict (a list, a string, a number) as
    the [AttributeError] of its missing [get]; in both cases the dashboard
    is the failure payload. *)
Theorem extract_dashboard_adapter_returns_no_record
    (connect : string → string → pydict → result pyval) (c : collaborators)
    (source auth_type : string) (drill_state : pyval) (kwargs : pydict)
    (conn result : pyval) :
  connect source auth_type kwargs = Ok conn →
  getitem conn "status" = Ok (VStr "success") →
  call_adapter c source auth_type conn drill_state kwargs = Ok result →
  is_dict result = false →
  extract_dashboard_with connect c source auth_type drill_state kwargs
  = _fail_result source auth_type
      (VStr match result with
            | VNone => "Unsupported source/auth_type combination."
            | _ => "'" +:+ type_name result
                   +:+ "' object has no attribute 'get'"
            end).
Proof.
  intros Hconnect Hstatus Hcall Hdict.
  unfold extract_dashboard_with, extract_dashboard_try.
  rewrite Hconnect. simpl. rewrite Hstatus. simpl. rewrite Hcall. simpl.
  by destruct result.
Qed.

Lemma extract_dashboard_adapter_returns_no_record_witness :
  extract_dashboard_with
    (λ _ _ _, Ok (VDict [("status", VStr "success")]))
    (Collaborators unreachable unreachable unreachable unreachable
       unreachable unreachable unreachable (λ _, Ok (VList [])))
    "tableau" "public" VNone []
  = _fail_result "tableau" "public"
      (VStr "'list' object has no attribute 'get'").
Proof.
  apply (extract_dashboard_adapter_returns_no_record
           (λ _ _ _, Ok (VDict [("status", VStr "success")]))
           (Collaborators unreachable unreachable unreachable unreachable
              unreachable unreachable unreachable (λ _, Ok (VList [])))
           "tableau" "public" VNone [] (VDict [("status", VStr "success")])
           (VList [])); reflexivity.
Defined.

(** ** The drill endpoints *)

Lemma get_field r k v dflt : field r k = Some v → get r k dflt = Ok v.
Proof.
  destruct r; simpl; try discriminate.
  unfold dict_get_default. by intros ->.
Qed.

Lemma dict_remove_absent (d : pydict) k :
  dict_mem d k = false → dict_remove d k = d.
Proof.
  unfold dict_mem. induction d as [|[k0 v0] d IH]; simpl; [done|].
  destruct (String.eqb k0 k); [done|]. intros H. by rewrite IH.
Qed.

Lemma dict_get_default_absent (d : pydict) k dflt :
  dict_mem d k = false → dict_get_default d k dflt = dflt.
Proof. unfold dict_mem, dict_get_default. by destruct (dict_get d k). Qed.

(** X11.  Both drill endpoints read the visuals with [.values()]: when
    the snapshot's [visuals] is a list they raise [AttributeError] out of
    the endpoint, before the visual is looked up and whatever its name.
    A failed extraction is such a snapshot (its [visuals] is [[]]), so on
    it the endpoints raise instead of reporting the failure. *)
Theorem drill_endpoints_raise_on_list_visuals (c : collaborators)
    (visual_name level source auth_type : string) (kwargs : pydict)
    (visuals : list pyval) :
  field (extract_dashboard c source auth_type
           (dict_get_default kwargs "drill_state" VNone)
           (dict_remove kwargs "drill_state")) "visuals"
  = Some (VList visuals) →
  drill_up c visual_name source auth_type kwargs = Raise list_has_no_values
  ∧ drill_down c visual_name level source auth_type kwargs
    = Raise list_has_no_values.
Proof.
  intros Hvisuals. unfold drill_up, drill_down.
  by rewrite (get_field _ _ _ _ Hvisuals).
Qed.

Lemma drill_endpoints_raise_on_list_visuals_witness :
  drill_up offline "Sales" "tableau" "public" [] = Raise list_has_no_values
  ∧ drill_down offline "Sales" "Region" "tableau" "public" []
    = Raise list_has_no_values.
Proof.
  apply (drill_endpoints_raise_on_list_visuals offline "Sales" "Region"
           "tableau" "public" [] []).
  reflexivity.
Defined.

(** X12.  With the repository's own connectors every call of [drill_up]
    and of [drill_down] raises that [AttributeError]: the extraction
    they start from never succeeds, and its failure payload carries a
    list of visuals. *)
Theorem drill_endpoints_always_raise (bodies : collaborators)
    (visual_name level source auth_type : string) (kwargs : pydict) :
  drill_up (with_signatures bodies) visual_name source auth_type kwargs
  = Raise list_has_no_values
  ∧ drill_down (with_signatures bodies) visual_name level source auth_type
      kwargs
    = Raise list_has_no_values.
Proof.
  unfold drill_up, drill_down.
  destruct (extract_dashboard_with_signatures bodies source auth_type
              (dict_get_default kwargs "drill_state" VNone)
              (dict_remove kwargs "drill_state")) as [message ->].
  done.
Qed.

Lemma drill_down_loop_first visual_name level pre (d : pydict) post l :
  Forall (λ x, is_dict x = true ∧ named visual_name x = false) pre →
  named visual_name (VDict d) = true →
  dict_get_default d "drill_state" (VList []) = VList l →
  drill_down_loop visual_name level (pre ++ VDict d :: post)
  = Ok (Some (VList (l ++ [VStr level]))).
Proof.
  intros Hpre Hname Hstate.
  induction Hpre as [|x pre [Hx Hnx] Hpre IH]; simpl.
  - simpl in Hname. rewrite Hname.
    unfold dict_mem, dict_get_default in *.
    destruct (dict_get d "drill_state") as [st|] eqn:E; simpl in *.
    + rewrite E. simpl. by subst st.
    + rewrite dict_get_set_eq. simpl. by injection Hstate as <-.
  - destruct x; try discriminate. simpl in *. by rewrite Hnx.
Qed.

Lemma drill_up_loop_first visual_name pre (d : pydict) post l :
  Forall (λ x, is_dict x = true ∧ named visual_name x = false) pre →
  named visual_name (VDict d) = true →
  dict_get_default d "drill_state" (VList []) = VList l →
  l ≠ [] →
  drill_up_loop visual_name (pre ++ VDict d :: post)
  = Ok (Some (VList (removelast l))).
Proof.
  intros Hpre Hname Hstate Hl.
  induction Hpre as [|x pre [Hx Hnx] Hpre IH]; simpl.
  - simpl in Hname. rewrite Hname.
    unfold dict_mem, dict_get_default in *.
    destruct (dict_get d "drill_state") as [st|] eqn:E; simpl in *.
    + rewrite E. simpl. subst st. by destruct l.
    + by injection Hstate as <-.
  - destruct x; try discriminate. simpl in *. by rewrite Hnx.
Qed.

Lemma drill_loops_not_found visual_name level vs :
  Forall (λ x, is_dict x = true ∧ named visual_name x = false) vs →
  drill_up_loop visual_name vs = Ok None
  ∧ drill_down_loop visual_name level vs = Ok None.
Proof.
  induction 1 as [|x vs [Hx Hnx] Hvs [IHu IHd]]; simpl; [done|].
  destruct x; try discriminate. simpl in *. by rewrite Hnx.
Qed.

(** X13.  [drill_down] on a snapshot whose visuals are a mapping: the
    first visual of the given name decides.  Its levels (none when it has
    no [drill_state]) get the new level appended, the dashboard is
    extracted again with [drill_state = {visual_name: levels + [level]}],
    and the answer is [status = "success"] around whatever that second
    extraction returned; popping the level just appended gives the former
    levels back. *)
Theorem drill_down_appends_level (c : collaborators)
    (visual_name level source auth_type : string) (kwargs visuals : pydict)
    (pre post : list pyval) (d : pydict) (levels : list pyval) :
  dict_mem kwargs "drill_state" = false →
  field (extract_dashboard c source auth_type VNone kwargs) "visuals"
  = Some (VDict visuals) →
  dict_values visuals = pre ++ VDict d :: post →
  Forall (λ x, is_dict x = true ∧ named visual_name x = false) pre →
  named visual_name (VDict d) = true →
  dict_get_default d "drill_state" (VList []) = VList levels →
  drill_down c visual_name level source auth_type kwargs
  = Ok (VDict [("status", VStr "success");
               ("dashboard",
                extract_dashboard c source auth_type
                  (VDict [(visual_name, VList (levels ++ [VStr level]))])
                  kwargs)])
  ∧ pop_last (VList (levels ++ [VStr level])) = Ok (VList levels).
Proof.
  intros Hkw Hvisuals Hvalues Hpre Hname Hstate. split.
  - unfold drill_down.
    rewrite dict_get_default_absent, dict_remove_absent by done.
    rewrite (get_field _ _ _ _ Hvisuals). simpl. rewrite Hvalues.
    rewrite (drill_down_loop_first _ _ _ _ _ _ Hpre Hname Hstate). simpl.
    by rewrite Hkw.
  - simpl. rewrite removelast_last. by destruct levels.
Qed.

Lemma drill_down_appends_level_witness :
  drill_down sales_undrilled "Sales" "Region" "tableau" "public" []
  = Ok (VDict [("status", VStr "success");
               ("dashboard",
                extract_dashboard sales_undrilled "tableau" "public"
                  (VDict [("Sales", VList [VStr "Region"])]) [])]).
Proof.
  apply (drill_down_appends_level sales_undrilled "Sales" "Region"
           "tableau" "public" []
           [("v1", VDict [("name", VStr "Sales")])] []  []
           [("name", VStr "Sales")] []);
    first [reflexivity | constructor].
Defined.

(** X14.  [drill_up] on a visual that has levels: the last level is
    dropped and the dashboard is extracted again with the levels that
    remain; a name that no visual of the mapping carries is answered with
    the "not found" failure by both endpoints. *)
Theorem drill_up_drops_last_level (c : collaborators)
    (visual_name level source auth_type : string) (kwargs visuals : pydict)
    (pre post : list pyval) (d : pydict) (levels : list pyval) :
  dict_mem kwargs "drill_state" = false →
  field (extract_dashboard c source auth_type VNone kwargs) "visuals"
  = Some (VDict visuals) →
  (dict_values visuals = pre ++ VDict d :: post →
   Forall (λ x, is_dict x = true ∧ named visual_name x = false) pre →
   named visual_name (VDict d) = true →
   dict_get_default d "drill_state" (VList []) = VList levels →
   levels ≠ [] →
   drill_up c visual_name source auth_type kwargs
   = Ok (VDict [("status", VStr "success");
                ("dashboard",
                 extract_dashboard c source auth_type
                   (VDict [(visual_name, VList (removelast levels))])
                   kwargs)]))
  ∧ (Forall (λ x, is_dict x = true ∧ named visual_name x = false)
            (dict_values visuals) →
     drill_up c visual_name source auth_type kwargs
     = Ok (VDict [("status", VStr "failed");
                  ("error",
                   VStr ("Visual " +:+ visual_name +:+ " not found."))])
     ∧ drill_down c visual_name level source auth_type kwargs
       = Ok (VDict [("status", VStr "failed");
                    ("error",
                     VStr ("Visual " +:+ visual_name +:+ " not found."))])).
Proof.
  intros Hkw Hvisuals. split.
  - intros Hvalues Hpre Hname Hstate Hlevels. unfold drill_up.
    rewrite dict_get_default_absent, dict_remove_absent by done.
    rewrite (get_field _ _ _ _ Hvisuals). simpl. rewrite Hvalues.
    rewrite (drill_up_loop_first _ _ _ _ _ Hpre Hname Hstate Hlevels). simpl.
    by rewrite Hkw.
  - intros Hnone.
    destruct (drill_loops_not_found visual_name level _ Hnone) as [Hu Hd].
    unfold drill_up, drill_down.
    rewrite dict_get_default_absent, dict_remove_absent by done.
    rewrite (get_field _ _ _ _ Hvisuals). simpl. by rewrite Hu, Hd.
Qed.

Lemma drill_up_drops_last_level_witness :
  drill_up sales_drilled "Sales" "tableau" "public" []
  = Ok (VDict [("status", VStr "success");
               ("dashboard",
                extract_dashboard sales_drilled "tableau" "public"
                  (VDict [("Sales", VList [VStr "Year"])]) [])])
  ∧ drill_down sales_drilled "Costs" "Region" "tableau" "public" []
    = Ok (VDict [("status", VStr "failed");
                 ("error", VStr "Visual Costs not found.")]).
Proof.
  split.
  - apply (proj1 (drill_up_drops_last_level sales_drilled "Sales" "Region"
                    "tableau" "public" []
                    [("v0", VDict [("name", VStr "Profit")]);
                     ("v1", VDict [("name", VStr "Sales");
                                   ("drill_state",
                                    VList [VStr "Year"; VStr "Quarter"])])]
                    [VDict [("name", VStr "Profit")]] []
                    [("name", VStr "Sales");
                     ("drill_state", VList [VStr "Year"; VStr "Quarter"])]
                    [VStr "Year"; VStr "Quarter"] eq_refl eq_refl));
      first [reflexivity | discriminate | repeat constructor].
  - apply (proj2 (drill_up_drops_last_level sales_drilled "Costs" "Region"
                    "tableau" "public" []
                    [("v0", VDict [("name", VStr "Profit")]);
                     ("v1", VDict [("name", VStr "Sales");
                                   ("drill_state",
                                    VList [VStr "Year"; VStr "Quarter"])])]
                    [] [] [] [] eq_refl eq_refl)).
    repeat constructor.
Defined.

(** ** More on column names *)

Lemma dedup_from_length counts cols :
  length (dedup_from counts cols) = length cols.
Proof.
  revert counts. induction cols as [|c cols IH]; intros counts; [done|].
  rewrite dedup_from_cons. cbn zeta. simpl. by rewrite IH.
Qed.

(** Normalization returns exactly one name per header. *)
Lemma normalize_column_names_length
    (semantic_map : list (string * list string)) (headers : list string) :
  length (normalize_column_names semantic_map headers) = length headers.
Proof.
  rewrite normalize_column_names_unfold.
  by rewrite length_fmap, dedup_from_length, length_fmap.
Qed.

Lemma occurrences_cons c x l :
  occurrences c (x :: l)
  = ((if decide (x = c) then 1 else 0) + occurrences c l)%nat.
Proof.
  unfold occurrences. rewrite filter_cons. by case_decide.
Qed.

Lemma dedup_from_lookup counts cols i c :
  cols !! i = Some c →
  dedup_from counts cols !! i
  = Some (let k := (default 0 (counts !! c)
                    + occurrences c (take (S i) cols))%nat in
          if decide (1 < k)%nat then c +:+ "_" +:+ pretty k else c).
Proof.
  revert counts i. induction cols as [|c0 cols IH]; intros counts i;
    [by destruct i|].
  rewrite dedup_from_cons. cbn zeta. destruct i as [|i]; simpl.
  - intros [= ->]. rewrite occurrences_cons.
    destruct (decide (c = c)) as [_|?]; [|done].
    unfold occurrences. simpl.
    by replace (default 0 (counts !! c) + (1 + 0))%nat
      with (S (default 0 (counts !! c)))%nat by lia.
  - intros Hi. rewrite (IH _ _ Hi). cbn zeta.
    rewrite (occurrences_cons c c0). f_equal.
    destruct (decide (c0 = c)) as [->|Hne].
    + rewrite lookup_insert_eq. simpl.
      match goal with
      | |- (if decide (1 < ?a)%nat then _ else _) = _ =>
          by replace a with (default 0 (counts !! c)
                             + S (occurrences c (take (S i) cols)))%nat by lia
      end.
    + by rewrite lookup_insert_ne.
Qed.

(** X15.  What the deduplication writes at each position: the name
    itself when it occurs there for the first time, and the name with the
    suffix [_k] when it occurs there for the [k]-th time, [k] at least
    2. *)
Theorem deduplicate_columns_by_occurrence (columns : list string)
    (i : nat) (c : string) :
  columns !! i = Some c →
  _deduplicate_columns columns !! i
  = Some (let k := occurrences c (take (S i) columns) in
          if decide (1 < k)%nat then c +:+ "_" +:+ pretty k else c).
Proof.
  intros Hi. change (_deduplicate_columns columns)
    with (dedup_from ∅ columns).
  rewrite (dedup_from_lookup _ _ _ _ Hi). by rewrite lookup_empty.
Qed.

Lemma deduplicate_columns_by_occurrence_witness :
  _deduplicate_columns ["sales"; "date"; "sales"; "sales"] !! 3%nat
  = Some "sales_3"
  ∧ _deduplicate_columns ["sales"; "date"; "sales"; "sales"] !! 1%nat
    = Some "date".
Proof.
  split.
  - apply (deduplicate_columns_by_occurrence
             ["sales"; "date"; "sales"; "sales"] 3 "sales"). reflexivity.
  - apply (deduplicate_columns_by_occurrence
             ["sales"; "date"; "sales"; "sales"] 1 "date"). reflexivity.
Defined.

Lemma is_slug_all_slug_chars s :
  is_slug s = true → all_chars is_slug_char s = true.
Proof.
  intros [->|Hc]%is_slug_closed; [done|]. by eapply closed_all_slug.
Qed.

(** X16.  Slugification alone is idempotent, and a slugified name is
    made of digits, lower-case letters and underscores only, with no
    underscore at either end and no two underscores in a row. *)
Theorem slugify_normal_form (s : string) :
  slugify (slugify s) = slugify s
  ∧ is_slug (slugify s) = true
  ∧ all_chars is_slug_char (slugify s) = true.
Proof.
  split; [apply slugify_idempotent|].
  split; [apply slugify_is_slug|].
  apply is_slug_all_slug_chars, slugify_is_slug.
Qed.

Lemma all_chars_app p s t :
  all_chars p (s +:+ t) = all_chars p s && all_chars p t.
Proof.
  induction s as [|c s IH]; simpl; [done|]. by rewrite IH, andb_assoc.
Qed.

Lemma dedup_from_slug_chars counts cols :
  Forall (λ c, all_chars is_slug_char c = true) cols →
  Forall (λ c, all_chars is_slug_char c = true) (dedup_from counts cols).
Proof.
  intros Hall. revert counts.
  induction Hall as [|c cols Hc Hall IH]; intros counts; [done|].
  rewrite dedup_from_cons. cbn zeta. constructor; [|apply IH].
  case_decide; [|done].
  rewrite all_chars_app, Hc. simpl.
  change ("_" +:+ pretty (S (default 0%nat (counts !! c))))
    with (String "_" (pretty (S (default 0%nat (counts !! c))))).
  simpl. eapply closed_all_slug, pretty_nat_closed.
Qed.

Lemma reverse_map_without_dollar :
  reverse_map default_semantic_map
  = <["revenue_$" := "revenue_usd"]> (reverse_map semantic_map_without_dollar).
Proof. vm_compute. reflexivity. Qed.

(** X17.  The alias ["revenue_$"] of the default table can never apply:
    a name that reaches the alias step has no [$] left in it, so
    normalization with the default table and with the table without that
    alias give the same names for every sequence of headers. *)
Theorem dollar_alias_is_dead (headers : list string) :
  normalize_column_names default_semantic_map headers
  = normalize_column_names semantic_map_without_dollar headers.
Proof.
  rewrite !normalize_column_names_unfold.
  apply Forall_fmap_ext.
  eapply Forall_impl; [apply dedup_from_slug_chars|].
  - apply Forall_fmap, Forall_forall. intros h _. simpl.
    apply is_slug_all_slug_chars, slugify_is_slug.
  - intros c Hc. unfold apply_alias.
    rewrite reverse_map_without_dollar, lookup_insert_ne; [done|].
    intros <-. discriminate Hc.
Qed.

(** ** More on missing values *)

Lemma select_rows_length keep i vs ws :
  length vs = length ws →
  length (select_rows keep i vs) = length (select_rows keep i ws).
Proof.
  revert i ws. induction vs as [|v vs IH]; intros i [|w ws]; try done.
  simpl. intros [= Hlen]. destruct (keep i); simpl; by rewrite (IH _ ws).
Qed.

Lemma select_rows_length_le keep i vs :
  (length (select_rows keep i vs) ≤ length vs)%nat.
Proof.
  revert i. induction vs as [|v vs IH]; intros i; simpl; [done|].
  specialize (IH (S i)). destruct (keep i); simpl; lia.
Qed.

(** X18.  Strategy [drop] on a frame of [n] rows: the result has no
    missing value, all its columns have the same number of rows, at most
    [n], and the columns keep their names, order and types. *)
Theorem handle_missing_values_drop (pd : pandas) (fill_constant : cell)
    (n : nat) (df : frame) :
  rectangular n df →
  ∃ df' m,
    handle_missing_values pd "drop" fill_constant df = Ok df'
    ∧ complete df'
    ∧ rectangular m df' ∧ (m ≤ n)%nat
    ∧ s_name <$> df' = s_name <$> df
    ∧ s_dtype <$> df' = s_dtype <$> df.
Proof.
  intros Hrect.
  exists (dropna df),
    (length (select_rows (λ i, negb (row_has_null df i)) 0 (replicate n CNull))).
  split; [done|]. split; [|split; [|split; [|split]]].
  - apply Forall_forall. intros col Hcol. by apply (dropna_complete df).
  - unfold rectangular, dropna. apply Forall_fmap, Forall_forall.
    intros col Hcol. simpl. apply select_rows_length.
    rewrite length_replicate.
    by apply (proj1 (Forall_forall _ _) Hrect).
  - etrans; [apply select_rows_length_le|]. by rewrite length_replicate.
  - unfold dropna. rewrite <-list_fmap_compose. by apply list_fmap_ext.
  - unfold dropna. rewrite <-list_fmap_compose. by apply list_fmap_ext.
Qed.

Lemma handle_missing_values_drop_witness :
  ∃ df' m,
    handle_missing_values decimal_pandas "drop" (CNum 0)
      [Series "region" DObject [CStr "north"; CNull; CStr "south"];
       Series "sales" DNumber [CNum 1; CNum 2; CNull]] = Ok df'
    ∧ complete df' ∧ rectangular m df' ∧ (m ≤ 3)%nat.
Proof.
  destruct (handle_missing_values_drop decimal_pandas (CNum 0) 3
              [Series "region" DObject [CStr "north"; CNull; CStr "south"];
               Series "sales" DNumber [CNum 1; CNum 2; CNull]])
    as (df' & m & Hrun & Hcomplete & Hrect & Hm & _).
  { repeat constructor. }
  by exists df', m.
Defined.

(** X19.  Strategy [fill_constant] with a constant that is not itself
    missing: the result has no missing value, the same shape, and every
    value that was present is unchanged. *)
Theorem handle_missing_values_fill_constant (pd : pandas)
    (fill_constant : cell) (n : nat) (df : frame) :
  is_null fill_constant = false →
  rectangular n df →
  ∃ df',
    handle_missing_values pd "fill_constant" fill_constant df = Ok df'
    ∧ complete df' ∧ rectangular n df'
    ∧ s_name <$> df' = s_name <$> df
    ∧ ∀ j col i v,
        df !! j = Some col → s_values col !! i = Some v →
        ∃ col', df' !! j = Some col'
                ∧ s_values col' !! i
                  = Some (if is_null v then fill_constant else v).
Proof.
  intros Hvalue Hrect. exists (fillna fill_constant df).
  split; [done|]. split; [|split; [|split]].
  - apply Forall_forall. intros col Hcol.
    by apply (fillna_complete fill_constant df).
  - unfold rectangular, fillna, fill_cells. apply Forall_fmap.
    eapply Forall_impl; [exact Hrect|]. intros col Hcol. simpl.
    by rewrite length_fmap.
  - unfold fillna. rewrite <-list_fmap_compose. by apply list_fmap_ext.
  - intros j col i v Hj Hi. eexists. unfold fillna.
    rewrite list_lookup_fmap, Hj. split; [done|]. simpl.
    unfold fill_cells. by rewrite list_lookup_fmap, Hi.
Qed.

Lemma handle_missing_values_fill_constant_witness :
  ∃ df',
    handle_missing_values decimal_pandas "fill_constant" (CNum 0)
      [Series "sales" DNumber [CNum 1; CNull]] = Ok df'
    ∧ complete df' ∧ rectangular 2 df'.
Proof.
  destruct (handle_missing_values_fill_constant decimal_pandas (CNum 0) 2
              [Series "sales" DNumber [CNum 1; CNull]])
    as (df' & Hrun & Hcomplete & Hrect & _).
  { reflexivity. }
  { repeat constructor. }
  by exists df'.
Defined.

(** X20.  Strategy [fill_mean] never changes a value that is present,
    whatever mean and mode [pandas] computes; it keeps the names, types
    and lengths of the columns, and it leaves every column that is
    neither numeric nor of object type exactly as it was, missing values
    included. *)
Theorem handle_missing_values_fill_mean (pd : pandas) (fill_constant : cell)
    (df : frame) :
  ∃ df',
    handle_missing_values pd "fill_mean" fill_constant df = Ok df'
    ∧ length df' = length df
    ∧ ∀ j col,
        df !! j = Some col →
        ∃ col', df' !! j = Some col'
                ∧ s_name col' = s_name col
                ∧ s_dtype col' = s_dtype col
                ∧ length (s_values col') = length (s_values col)
                ∧ (∀ i v, s_values col !! i = Some v → is_null v = false →
                          s_values col' !! i = Some v)
                ∧ (s_dtype col ≠ DNumber → s_dtype col ≠ DObject →
                   col' = col).
Proof.
  exists (fill_mean pd df). split; [done|].
  split; [unfold fill_mean; by rewrite length_fmap|].
  intros j col Hj. eexists. unfold fill_mean.
  rewrite list_lookup_fmap, Hj. split; [done|]. simpl.
  assert (∀ value i v, s_values col !! i = Some v → is_null v = false →
            fill_cells value (s_values col) !! i = Some v) as Hkeep.
  { intros value i v Hi Hv. unfold fill_cells.
    by rewrite list_lookup_fmap, Hi; simpl; rewrite Hv. }
  destruct col as [name [] vs]; simpl in *;
    try (repeat split; done).
  - destruct (series_mode pd vs); simpl; repeat split; try done.
    + unfold fill_cells. by rewrite length_fmap.
    + apply Hkeep.
  - repeat split; try done.
    + unfold fill_cells. by rewrite length_fmap.
    + apply Hkeep.
Qed.

Lemma handle_missing_values_fill_mean_witness :
  ∃ df',
    handle_missing_values decimal_pandas "fill_mean" (CNum 0)
      [Series "day" DDatetime [CNull; CStr "2025-01-02"];
       Series "sales" DNumber [CNum 1; CNull]] = Ok df'
    ∧ df' !! 0%nat = Some (Series "day" DDatetime [CNull; CStr "2025-01-02"])
    ∧ ∃ col', df' !! 1%nat = Some col'
              ∧ s_values col' !! 0%nat = Some (CNum 1).
Proof.
  destruct (handle_missing_values_fill_mean decimal_pandas (CNum 0)
              [Series "day" DDatetime [CNull; CStr "2025-01-02"];
               Series "sales" DNumber [CNum 1; CNull]])
    as (df' & Hrun & _ & Hcols).
  exists df'. split; [exact Hrun|]. split.
  - destruct (Hcols 0%nat _ eq_refl) as (col' & Hcol' & _ & _ & _ & _ & Hsame).
    rewrite Hcol'. f_equal. apply Hsame; discriminate.
  - destruct (Hcols 1%nat _ eq_refl) as (col' & Hcol' & _ & _ & _ & Hkeep & _).
    exists col'. split; [exact Hcol'|].
    apply (Hkeep 0%nat (CNum 1)); reflexivity.
Defined.

(** ** More on the dashboard cleaner *)

Lemma for_each_Forall2 {A B} (f : A → result B) l ys :
  for_each f l = Ok ys → Forall2 (λ x y, f x = Ok y) l ys.
Proof.
  revert ys. induction l as [|x l IH]; simpl; intros ys.
  - intros [= <-]. constructor.
  - destruct (f x) as [y|] eqn:Hx; simpl; [|discriminate].
    destruct (for_each f l) as [ys'|]; simpl; [|discriminate].
    intros [= <-]. constructor; auto.
Qed.

(** What a returning run went through. *)
Lemma clean_unified_dashboard_data_inv fc extracted cleaned :
  clean_unified_dashboard_data fc extracted = Ok cleaned →
  ∃ ti tables ki kpis fi filters vi visuals ci components,
    iter (dict_get_default extracted "tables" (VList [])) = Ok ti
    ∧ for_each (clean_table_item fc) ti = Ok tables
    ∧ iter (dict_get_default extracted "kpis" (VList [])) = Ok ki
    ∧ for_each (clean_entry_item fc) ki = Ok kpis
    ∧ iter (dict_get_default extracted "filters" (VList [])) = Ok fi
    ∧ for_each (clean_entry_item fc) fi = Ok filters
    ∧ iter (dict_get_default extracted "visuals" (VList [])) = Ok vi
    ∧ for_each (clean_entry_item fc) vi = Ok visuals
    ∧ iter (dict_get_default extracted "components" (VList [])) = Ok ci
    ∧ for_each (clean_component_item fc) ci = Ok components
    ∧ field cleaned "tables" = Some (VList tables)
    ∧ field cleaned "kpis" = Some (VList kpis)
    ∧ field cleaned "filters" = Some (VList filters)
    ∧ field cleaned "visuals" = Some (VList visuals)
    ∧ field cleaned "components" = Some (VList components).
Proof.
  unfold clean_unified_dashboard_data.
  destruct (iter (dict_get_default extracted "tables" _)) as [ti|] eqn:?;
    simpl; [|discriminate].
  destruct (for_each (clean_table_item fc) ti) as [tables|] eqn:?;
    simpl; [|discriminate].
  destruct (iter (dict_get_default extracted "kpis" _)) as [ki|] eqn:?;
    simpl; [|discriminate].
  destruct (for_each (clean_entry_item fc) ki) as [kpis|] eqn:?;
    simpl; [|discriminate].
  destruct (iter (dict_get_default extracted "filters" _)) as [fi|] eqn:?;
    simpl; [|discriminate].
  destruct (for_each (clean_entry_item fc) fi) as [filters|] eqn:?;
    simpl; [|discriminate].
  destruct (iter (dict_get_default extracted "visuals" _)) as [vi|] eqn:?;
    simpl; [|discriminate].
  destruct (for_each (clean_entry_item fc) vi) as [visuals|] eqn:?;
    simpl; [|discriminate].
  destruct (iter (dict_get_default extracted "components" _)) as [ci|] eqn:?;
    simpl; [|discriminate].
  destruct (for_each (clean_component_item fc) ci) as [components|] eqn:?;
    simpl; [|discriminate].
  intros [= <-]. exists ti, tables, ki, kpis, fi, filters, vi, visuals, ci,
    components.
  repeat split; first [assumption | reflexivity].
Qed.

Lemma cleaned_items_pass {f : pyval → result pyval} items out :
  (∀ v, is_dict v = false → f v = Ok v) →
  Forall2 (λ x y, f x = Ok y) items out →
  length out = length items
  ∧ ∀ i v, items !! i = Some v → is_dict v = false → out !! i = Some v.
Proof.
  intros Hpass Hall. split; [symmetry; by eapply Forall2_length|].
  intros i v Hi Hv.
  destruct (Forall2_lookup_l _ _ _ _ _ Hall Hi) as (y & Hy & Hf).
  rewrite Hpass in Hf by done. by injection Hf as <-.
Qed.

(** X21.  When the cleaner returns, each of the five cleaned entries
    given as a list has exactly one output per item, in order, and an
    item that is not a record (a number, a string, a frame already built)
    is passed through unchanged. *)
Theorem clean_unified_dashboard_data_one_output_per_item
    (fc : frame_cleaning) (extracted : pydict) (cleaned : pyval)
    (k : string) (items : list pyval) :
  clean_unified_dashboard_data fc extracted = Ok cleaned →
  k ∈ cleaned_entries →
  dict_get_default extracted k (VList []) = VList items →
  ∃ out,
    field cleaned k = Some (VList out)
    ∧ length out = length items
    ∧ ∀ i v, items !! i = Some v → is_dict v = false → out !! i = Some v.
Proof.
  intros Hrun Hk Hitems.
  apply clean_unified_dashboard_data_inv in Hrun
    as (ti & tables & ki & kpis & fi & filters & vi & visuals & ci
        & components & Hti & Ht & Hki & Hk' & Hfi & Hf & Hvi & Hv & Hci & Hc
        & Ft & Fk & Ff & Fv & Fc).
  unfold cleaned_entries in Hk.
  repeat (apply elem_of_cons in Hk as [->|Hk]);
    [..|by apply elem_of_nil in Hk]; rewrite Hitems in *; simpl in *.
  - injection Hti as <-. exists tables. split; [done|].
    apply for_each_Forall2 in Ht. eapply cleaned_items_pass; [|done].
    by intros [].
  - injection Hki as <-. exists kpis. split; [done|].
    apply for_each_Forall2 in Hk'. eapply cleaned_items_pass; [|done].
    by intros [].
  - injection Hfi as <-. exists filters. split; [done|].
    apply for_each_Forall2 in Hf. eapply cleaned_items_pass; [|done].
    by intros [].
  - injection Hvi as <-. exists visuals. split; [done|].
    apply for_each_Forall2 in Hv. eapply cleaned_items_pass; [|done].
    by intros [].
  - injection Hci as <-. exists components. split; [done|].
    apply for_each_Forall2 in Hc. eapply cleaned_items_pass; [|done].
    by intros [].
Qed.

Lemma clean_unified_dashboard_data_one_output_per_item_witness :
  ∃ cleaned out,
    clean_unified_dashboard_data keep_as_is
      [("kpis", VList [VInt 12; VDict [("name", VStr "k1")]; VStr "7%"])]
    = Ok cleaned
    ∧ field cleaned "kpis" = Some (VList out)
    ∧ length out = 3%nat
    ∧ out !! 0%nat = Some (VInt 12) ∧ out !! 2%nat = Some (VStr "7%").
Proof.
  eexists.
  destruct (clean_unified_dashboard_data_one_output_per_item keep_as_is
              [("kpis", VList [VInt 12; VDict [("name", VStr "k1")];
                               VStr "7%"])] _ "kpis"
              [VInt 12; VDict [("name", VStr "k1")]; VStr "7%"] eq_refl)
    as (out & Hout & Hlen & Hpass).
  { unfold cleaned_entries. set_solver. }
  { reflexivity. }
  exists out. split; [reflexivity|]. split; [exact Hout|].
  split; [exact Hlen|]. split; apply Hpass; reflexivity.
Defined.

(** X22.  An entry that is present but cannot be iterated ([None], a
    number, a boolean) is not treated like an absent one: for each of the
    five cleaned entries it makes the cleaner raise, where the absent
    entry counts as the empty list. *)
Theorem clean_unified_dashboard_data_rejects_scalars
    (fc : frame_cleaning) (extracted : pydict) (k : string) (v : pyval) :
  k ∈ cleaned_entries →
  dict_get extracted k = Some v →
  is_iterable v = false →
  ∃ e, clean_unified_dashboard_data fc extracted = Raise e.
Proof.
  intros Hk Hget Hv.
  destruct (clean_unified_dashboard_data fc extracted) as [cleaned|e] eqn:Hrun;
    [|eauto].
  exfalso.
  apply clean_unified_dashboard_data_inv in Hrun
    as (ti & tables & ki & kpis & fi & filters & vi & visuals & ci
        & components & Hti & _ & Hki & _ & Hfi & _ & Hvi & _ & Hci & _).
  unfold cleaned_entries in Hk. unfold dict_get_default in *.
  repeat (apply elem_of_cons in Hk as [->|Hk]);
    [..|by apply elem_of_nil in Hk]; rewrite Hget in *; simpl in *;
    by destruct v.
Qed.

Lemma clean_unified_dashboard_data_rejects_scalars_witness :
  ∃ e, clean_unified_dashboard_data keep_as_is [("filters", VNone)] = Raise e.
Proof.
  apply (clean_unified_dashboard_data_rejects_scalars keep_as_is
           [("filters", VNone)] "filters" VNone);
    [unfold cleaned_entries; set_solver | reflexivity | reflexivity].
Defined.

Lemma dict_get_remove_ne (d : pydict) k k' :
  k ≠ k' → dict_get (dict_remove d k) k' = dict_get d k'.
Proof.
  intros Hne. induction d as [|[k0 v0] d IH]; simpl; [done|].
  destruct (String.eqb_spec k0 k) as [->|_]; simpl.
  - rewrite IH. by destruct (String.eqb_spec k k').
  - by rewrite IH.
Qed.

Lemma clean_component_item_drill_state fc (d : pydict) v ds :
  clean_component_item fc (VDict d) = Ok v →
  dict_get d "drill_state" = Some ds → ds ≠ VNone →
  field v "drill_state" = Some ds.
Proof.
  unfold clean_component_item. intros Hrun Hds Hnone.
  set (d' := if dict_mem d "highlights" then d
             else dict_set d "highlights" (VList [])) in *.
  assert (dict_get d' "drill_state" = Some ds) as Hd'.
  { unfold d'. destruct (dict_mem d "highlights"); [done|].
    by rewrite dict_get_set_ne. }
  destruct (is_structured _).
  - unfold dict_get_default in Hrun.
    rewrite dict_get_remove_ne, Hd' in Hrun by done. simpl in Hrun.
    destruct (clean_component fc _) as [cc|]; [|discriminate].
    simpl in Hrun. injection Hrun as <-.
    destruct ds; try done; apply dict_get_set_eq.
  - by injection Hrun as <-.
Qed.

(** X23.  The overlay of a component survives cleaning: every record
    among the components comes out with a [highlights] entry, equal to
    the one it came with and to [[]] when it had none, and with its
    [drill_state] when it had one that is not [None], whether its type is
    one of the cleaned ones or not and whatever the frame cleaning
    returned for it. *)
Theorem clean_unified_dashboard_data_keeps_overlay
    (fc : frame_cleaning) (extracted : pydict) (cleaned : pyval)
    (items : list pyval) :
  clean_unified_dashboard_data fc extracted = Ok cleaned →
  dict_get_default extracted "components" (VList []) = VList items →
  ∃ out,
    field cleaned "components" = Some (VList out)
    ∧ ∀ i d, items !! i = Some (VDict d) →
        ∃ v, out !! i = Some v
             ∧ field v "highlights"
               = Some (default (VList []) (dict_get d "highlights"))
             ∧ ∀ ds, dict_get d "drill_state" = Some ds → ds ≠ VNone →
                     field v "drill_state" = Some ds.
Proof.
  intros Hrun Hitems.
  apply clean_unified_dashboard_data_inv in Hrun
    as (ti & tables & ki & kpis & fi & filters & vi & visuals & ci
        & components & _ & _ & _ & _ & _ & _ & _ & _ & Hci & Hc
        & _ & _ & _ & _ & Fc).
  rewrite Hitems in Hci. injection Hci as <-.
  exists components. split; [done|]. intros i d Hi.
  apply for_each_Forall2 in Hc.
  destruct (Forall2_lookup_l _ _ _ _ _ Hc Hi) as (v & Hv & Hf).
  exists v. split; [done|]. split.
  - by apply (clean_component_item_highlights fc).
  - intros ds. by apply (clean_component_item_drill_state fc).
Qed.

Lemma clean_unified_dashboard_data_keeps_overlay_witness :
  ∃ cleaned out v,
    clean_unified_dashboard_data keep_as_is
      [("components",
        VList [VDict [("type", VStr "visual"); ("name", VStr "Sales");
                      ("highlights", VList [VStr "p1"]);
                      ("drill_state", VList [VStr "Year"])]])]
    = Ok cleaned
    ∧ field cleaned "components" = Some (VList out)
    ∧ out !! 0%nat = Some v
    ∧ field v "highlights" = Some (VList [VStr "p1"])
    ∧ field v "drill_state" = Some (VList [VStr "Year"]).
Proof.
  eexists.
  destruct (clean_unified_dashboard_data_keeps_overlay keep_as_is
              [("components",
                VList [VDict [("type", VStr "visual"); ("name", VStr "Sales");
                              ("highlights", VList [VStr "p1"]);
                              ("drill_state", VList [VStr "Year"])]])]
              _ _ eq_refl eq_refl) as (out & Hout & Hitems).
  destruct (Hitems 0%nat _ eq_refl) as (v & Hv & Hh & Hd).
  exists out, v. split; [reflexivity|]. split; [exact Hout|].
  split; [exact Hv|]. split; [exact Hh|].
  apply Hd; [reflexivity | discriminate].
Defined.

(** X24.  Cleaning a failure payload of the extractor never raises,
    whatever the frame cleaning would do: it returns empty lists for the
    five cleaned entries, keeps the error, the source and the auth_type,
    and supplies the empty mapping for the [drill_state] the payload does
    not have. *)
Theorem clean_unified_dashboard_data_on_failure (fc : frame_cleaning)
    (source auth_type : string) (error : pyval) :
  match _fail_result source auth_type error with
  | VDict failed =>
      clean_unified_dashboard_data fc failed
      = Ok (VDict [("tables", VList []); ("kpis", VList []);
                   ("filters", VList []); ("visuals", VList []);
                   ("layout", VDict []); ("components", VList []);
                   ("html_text", VStr ""); ("error", error);
                   ("source", VStr source); ("auth_type", VStr auth_type);
                   ("drill_state", VDict [])])
  | _ => False
  end.
Proof. reflexivity. Qed.

(** ** Flattening *)

Lemma flatten_data_list l :
  flatten_data (VList l) = concat (flatten_data <$> l).
Proof.
  induction l as [|x l IH]; [done|].
  change (flatten_data (VList (x :: l)))
    with (flatten_data x ++ flatten_data (VList l)).
  by rewrite IH.
Qed.

(** Induction on values that goes through lists. *)
Lemma pyval_list_ind (P : pyval → Prop) :
  (∀ v, (∀ l, v ≠ VList l) → P v) →
  (∀ l, Forall P l → P (VList l)) →
  ∀ v, P v.
Proof.
  intros Hleaf Hlist. fix IH 1. intros v.
  destruct v as [| | | |l| |]; try (apply Hleaf; discriminate).
  apply Hlist. induction l as [|x l IHl]; constructor; [apply IH|exact IHl].
Qed.

Lemma flatten_data_records v : Forall (λ r, is_dict r = true) (flatten_data v).
Proof.
  induction v as [v Hv|l IH] using pyval_list_ind.
  - destruct v; try (repeat constructor); by destruct (Hv l).
  - rewrite flatten_data_list. apply Forall_concat, Forall_fmap.
    exact IH.
Qed.

Lemma flatten_data_of_records l :
  Forall (λ r, is_dict r = true) l → flatten_data (VList l) = l.
Proof.
  rewrite flatten_data_list. induction 1 as [|r l Hr Hl IH]; [done|].
  rewrite fmap_cons. simpl. rewrite IH. by destruct r.
Qed.

(** X25.  [flatten_data] returns records only, whatever the nesting of
    lists and scalars it is given; flattening its own result changes
    nothing, and flattening a list is flattening its parts and joining
    the results. *)
Theorem flatten_data_flat (data : pyval) (a b : list pyval) :
  Forall (λ r, is_dict r = true) (flatten_data data)
  ∧ flatten_data (VList (flatten_data data)) = flatten_data data
  ∧ flatten_data (VList (a ++ b))
    = flatten_data (VList a) ++ flatten_data (VList b).
Proof.
  split; [apply flatten_data_records|]. split.
  - apply flatten_data_of_records, flatten_data_records.
  - by rewrite !flatten_data_list, fmap_app, concat_app.
Qed.

(** ** Vendor failures *)

(** X26.  When the vendor connector answers with a status other than
    "success", the connection is failed and carries the vendor's error,
    or [{type: "unknown", message: "Connection failed"}] when the vendor
    gave none; everything else the vendor returned is dropped.  A vendor
    answer that is not a dict at all is a failed connection too, with the
    [AttributeError] of its missing [get] as the message. *)
Theorem connect_bi_dashboard_vendor_failure (c : collaborators)
    (source auth_type : string) (kwargs : pydict)
    (connector : pydict → result pyval) (answer : pyval) :
  source ≠ EmptyString →
  vendor_connector c source auth_type = Some connector →
  connector (dict_set (dict_remove kwargs "url") "url"
                      (dict_get_default kwargs "url" VNone)) = Ok answer →
  match answer with
  | VDict r =>
      eq_str (dict_get_default r "status" VNone) "success" = false →
      connect_bi_dashboard c source auth_type kwargs
      = VDict [("status", VStr "failed"); ("source", VStr source);
               ("auth_type", VStr auth_type); ("client", VNone);
               ("metadata", VDict []); ("connection_info", VDict []);
               ("error",
                dict_get_default r "error"
                  (VDict [("type", VStr "unknown");
                          ("message", VStr "Connection failed")]))]
  | _ =>
      connect_bi_dashboard c source auth_type kwargs
      = VDict [("status", VStr "failed"); ("source", VStr source);
               ("auth_type", VStr auth_type); ("client", VNone);
               ("metadata", VDict []); ("connection_info", VDict []);
               ("error",
                VDict [("type", VStr "exception");
                       ("message",
                        VStr ("'" +:+ type_name answer
                              +:+ "' object has no attribute 'get'"))])]
  end.
Proof.
  intros Hsource Hvendor Hanswer.
  unfold connect_bi_dashboard, connect_dispatch.
  destruct (String.eqb_spec source "") as [->|_]; [done|].
  unfold vendor_connector in Hvendor.
  destruct (String.eqb source "powerbi"), (String.eqb source "tableau"),
    (String.eqb auth_type "private"), (String.eqb auth_type "public");
    try discriminate; injection Hvendor as <-; rewrite Hanswer; simpl;
    destruct answer; try done;
    unfold _normalize_result; simpl; by intros ->.
Qed.

Lemma connect_bi_dashboard_vendor_failure_witness :
  connect_bi_dashboard auth_expired "powerbi" "private" []
  = VDict [("status", VStr "failed"); ("source", VStr "powerbi");
           ("auth_type", VStr "private"); ("client", VNone);
           ("metadata", VDict []); ("connection_info", VDict []);
           ("error", VStr "auth expired")].
Proof.
  apply (connect_bi_dashboard_vendor_failure auth_expired "powerbi" "private"
           [] (connect_private_powerbi auth_expired)
           (VDict [("status", VStr "failed");
                   ("error", VStr "auth expired")]));
    first [discriminate | reflexivity].
Defined.
